(** * Protein tracker API: a shallow embedding of [main.py] and [schemas.py]

    The request handlers of [main.py] are embedded as functions in a state and
    exception monad over a document store.  Python floats are the kernel's
    binary64 floats, documents are dictionaries ([gmap string Val]) with an
    [_id], and every raised exception is an explicit result. *)

From Stdlib Require Import ZArith Floats Ascii String List Lia.
From stdpp Require Import gmap strings list.

#[local] Set Warnings "-inexact-float".

Local Open Scope string_scope.
Local Open Scope Z_scope.
Local Open Scope list_scope.

(** ** Digit strings

    [ObjectId] renders as 24 hexadecimal digits and [date.isoformat] as
    zero-padded decimal fields; both are fixed-width positional numerals. *)

Definition ascii_code (c : ascii) : Z := Z.of_N (N_of_ascii c).
Definition ascii_chr (n : Z) : ascii := ascii_of_N (Z.to_N n).

Definition dec_digit (c : ascii) : option Z :=
  let n := ascii_code c in
  if (48 <=? n) && (n <=? 57) then Some (n - 48) else None.

Definition dec_char (d : Z) : ascii := ascii_chr (48 + d).

(** [int(c, 16)] of one character: [0-9], [a-f] or [A-F]. *)
Definition hex_digit (c : ascii) : option Z :=
  let n := ascii_code c in
  if (48 <=? n) && (n <=? 57) then Some (n - 48)
  else if (97 <=? n) && (n <=? 102) then Some (n - 87)
  else if (65 <=? n) && (n <=? 70) then Some (n - 55)
  else None.

(** Lower-case hexadecimal, as [binascii.hexlify] prints it. *)
Definition hex_char (d : Z) : ascii :=
  if d <? 10 then ascii_chr (48 + d) else ascii_chr (87 + d).

Fixpoint parse_digits (dig : ascii -> option Z) (b : Z) (cs : list ascii)
    (acc : Z) : option Z :=
  match cs with
  | [] => Some acc
  | c :: cs' =>
      match dig c with
      | Some d => parse_digits dig b cs' (acc * b + d)
      | None => None
      end
  end.

(** The [k] low-order base-[b] digits of [n], most significant first. *)
Fixpoint print_digits (chr : Z -> ascii) (b : Z) (k : nat) (n : Z) : list ascii :=
  match k with
  | O => []
  | S k' => print_digits chr b k' (n / b) ++ [chr (n mod b)]
  end.

(** ** [datetime.date] *)

Record date := mkdate { year : Z; month : Z; day : Z }.

Definition is_leap (y : Z) : bool :=
  (y mod 4 =? 0) && (negb (y mod 100 =? 0) || (y mod 400 =? 0)).

Definition days_in_month (y m : Z) : Z :=
  if (m =? 2) then (if is_leap y then 29 else 28)
  else if (m =? 4) || (m =? 6) || (m =? 9) || (m =? 11) then 30
  else 31.

(** The range check of the [date] constructor: [MINYEAR = 1],
    [MAXYEAR = 9999].  Every [date] object satisfies it. *)
Definition date_valid (d : date) : bool :=
  (1 <=? year d) && (year d <=? 9999) &&
  (1 <=? month d) && (month d <=? 12) &&
  (1 <=? day d) && (day d <=? days_in_month (year d) (month d)).

(** [date.isoformat()]: ["%04d-%02d-%02d"].  A [date] has its year in
    [1..9999], so four digits are all of it. *)
Definition isoformat (d : date) : string :=
  string_of_list_ascii
    (print_digits dec_char 10 4 (year d) ++ "-"%char ::
     print_digits dec_char 10 2 (month d) ++ "-"%char ::
     print_digits dec_char 10 2 (day d)).

(** [date.fromisoformat(s)] in the format the handler's error message names,
    [YYYY-MM-DD]: exactly ten characters, decimal digits around two hyphens,
    and a triple the [date] constructor accepts.  [None] is [ValueError]. *)
Definition fromisoformat (s : string) : option date :=
  match list_ascii_of_string s with
  | [y1; y2; y3; y4; s1; m1; m2; s2; d1; d2] =>
      if Ascii.eqb s1 "-" && Ascii.eqb s2 "-" then
        match parse_digits dec_digit 10 [y1; y2; y3; y4] 0,
              parse_digits dec_digit 10 [m1; m2] 0,
              parse_digits dec_digit 10 [d1; d2] 0 with
        | Some y, Some m, Some d =>
            let r := mkdate y m d in
            if date_valid r then Some r else None
        | _, _, _ => None
        end
      else None
  | _ => None
  end.

(** ** [bson.ObjectId]

    A 12-byte identifier, held as the 96-bit number its bytes spell. *)

Definition ObjectId := Z.

(** [str(ObjectId)]: the 24 lower-case hex digits of the 12 bytes. *)
Definition ObjectId_str (o : ObjectId) : string :=
  string_of_list_ascii (print_digits hex_char 16 24 o).

(** [ObjectId(id_str)] for a [str] argument: 24 hex digits, else
    [InvalidId] ([None]). *)
Definition ObjectId_parse (id_str : string) : option ObjectId :=
  let cs := list_ascii_of_string id_str in
  if (length cs =? 24)%nat then parse_digits hex_digit 16 cs 0 else None.

(** ** Python floats and [round]

    A Python [float] is an IEEE-754 binary64 number, and so is the kernel's
    [float]: [*] and [+] below are the operations the handlers run. *)

(** Nearest integer to [n / d], ties to the even one ([0 <= n], [0 < d]). *)
Definition rne_div (n d : Z) : Z :=
  let q := n / d in
  let r := n mod d in
  if 2 * r <? d then q
  else if d <? 2 * r then q + 1
  else if Z.even q then q else q + 1.

(** The binary64 number nearest to [a / b] ([0 < a], [0 < b], ties to even),
    with sign bit [sg]: what [strtod] returns for the decimal numeral. *)
Definition nearest_float (sg : bool) (a b : Z) : float :=
  let c := Z.log2 a - Z.log2 b - 53 in
  let e0 := if a * 2 ^ Z.max (- c) 0 <? b * 2 ^ Z.max c 0 * 2 ^ 53 then c else c + 1 in
  let e := Z.max e0 (-1074) in
  match rne_div (a * 2 ^ Z.max (- e) 0) (b * 2 ^ Z.max e 0) with
  | Zpos q => SF2Prim (S754_finite sg q e)
  | _ => SF2Prim (S754_zero sg)
  end.

(** [round(x, ndigits)] for a float [x] and [0 <= ndigits]
    ([float.__round__]): infinities and NaN round to themselves; otherwise
    [x] is converted to the decimal numeral with [ndigits] fractional digits
    nearest to its exact value (ties to even) and that numeral is read back. *)
Definition py_round (x : float) (ndigits : nat) : float :=
  if (323 <? ndigits)%nat then x else
  match Prim2SF x with
  | S754_finite sg m e =>
      let p := 10 ^ Z.of_nat ndigits in
      let n := rne_div (Zpos m * 2 ^ Z.max e 0 * p) (2 ^ Z.max (- e) 0) in
      if n =? 0 then SF2Prim (S754_zero sg) else nearest_float sg n p
  | _ => x
  end.

(** ** Documents and the store *)

(** The values a document field holds: [None], a [str] or a [float]. *)
Inductive Val :=
| VNull
| VStr (s : string)
| VFloat (f : float).

(** A stored document: its [_id] and its other fields. *)
Record Doc := mkDoc { _id : ObjectId; fields : gmap string Val }.

(** [doc.get(key)]: the value, [None] when the key is absent. *)
Definition get (doc : Doc) (key : string) : Val :=
  default VNull (fields doc !! key).

(** The query documents the handlers build: [{}], [{key: value}] for a
    [str] value, and [{"_id": o}]. *)
Inductive Query :=
| QAll
| QStr (key value : string)
| QId (o : ObjectId).

Definition matches (q : Query) (doc : Doc) : bool :=
  match q with
  | QAll => true
  | QStr key value =>
      match fields doc !! key with
      | Some (VStr s) => String.eqb s value
      | _ => false
      end
  | QId o => _id doc =? o
  end.

(** The database: its collections by name, each in insertion order, and the
    identifier the next insert will assign. *)
Record Store := mkStore {
  colls : gmap string (list Doc);
  next_oid : ObjectId
}.

(** [db[name]]: a collection that was never written to is empty. *)
Definition coll (s : Store) (name : string) : list Doc :=
  default [] (colls s !! name).

Definition empty_store : Store := mkStore ∅ 0.

(** ** Exceptions and the handler monad *)

Inductive Exception :=
| HTTPException (status_code : Z) (detail : string)
| RequestValidationError
    (* the request body fails its pydantic schema: FastAPI answers 422 *)
| Uncaught.
    (* any other exception ([TypeError], [AttributeError], a pydantic
       [ValidationError] of a response model): the request ends in a 500 *)

Inductive result (A : Type) :=
| Ok (a : A)
| Raise (e : Exception).
Arguments Ok {A} a.
Arguments Raise {A} e.

(** A handler runs against the store; a raised exception keeps the writes
    made before it. *)
Definition M (A : Type) : Type := Store -> result A * Store.

#[global] Instance result_ret : MRet result := fun A a => Ok a.
#[global] Instance result_bind : MBind result := fun A B f r =>
  match r with
  | Ok a => f a
  | Raise e => Raise e
  end.

#[global] Instance M_ret : MRet M := fun A a s => (Ok a, s).
#[global] Instance M_bind : MBind M := fun A B f m s =>
  match m s with
  | (Ok a, s') => f a s'
  | (Raise e, s') => (Raise e, s')
  end.

Definition raise {A} (e : Exception) : M A := fun s => (Raise e, s).
Definition lift {A} (r : result A) : M A := fun s => (r, s).

(** ** The storage gateway *)

(** Modelled from the spec: [database.create_document], which is not among
    the source files.  The spec gives [insert(collection, record) -> id]:
    the record is stored in the named collection under an identifier the
    storage layer assigns, unique among all it has assigned, and the
    identifier is returned as its string. *)
Definition create_document (collection_name : string) (data : gmap string Val)
    : M string :=
  fun s =>
    let o := next_oid s in
    (Ok (ObjectId_str o),
     mkStore (<[collection_name := coll s collection_name ++ [mkDoc o data]]> (colls s))
             (o + 1)).

(** Modelled from the spec: [database.get_documents], which is not among the
    source files.  The spec gives [find(collection, filter) -> sequence of
    records]: the stored records of the collection that match the filter. *)
Definition get_documents (collection_name : string) (q : Query) : M (list Doc) :=
  fun s => (Ok (List.filter (matches q) (coll s collection_name)), s).

(** Modelled from the spec: [db[collection_name].find_one(filter)] on the
    handle [database.db], which is not among the source files: the first
    stored record that matches, [None] when there is none. *)
Definition find_one (collection_name : string) (q : Query) : M (option Doc) :=
  fun s => (Ok (head (List.filter (matches q) (coll s collection_name))), s).

(** ** What the handlers write

    The shape of the documents [create_item] and [create_consumption] store,
    as decidable predicates on a stored document. *)

Definition is_str (v : Val) : bool :=
  match v with VStr _ => true | _ => false end.

Definition is_float (v : Val) : bool :=
  match v with VFloat _ => true | _ => false end.

Definition is_isodate (v : Val) : bool :=
  match v with
  | VStr s => match fromisoformat s with Some _ => true | None => false end
  | _ => false
  end.

Definition item_doc_ok (d : Doc) : bool :=
  is_str (get d "name") && is_str (get d "unit") &&
  is_float (get d "protein_per_unit").

Definition consumption_doc_ok (d : Doc) : bool :=
  is_isodate (get d "date") && is_str (get d "item_id") &&
  is_str (get d "item_name") && is_str (get d "unit") &&
  is_float (get d "quantity") && is_float (get d "protein_per_unit") &&
  is_float (get d "protein_total").

(** Every identifier in [docs] was assigned before [n]. *)
Definition ids_below (n : ObjectId) (docs : list Doc) : bool :=
  forallb (fun d => _id d <? n) docs.

(** A store whose two collections hold what the handlers write, under
    identifiers the store has assigned. *)
Definition store_ok (s : Store) : bool :=
  forallb item_doc_ok (coll s "item") &&
  forallb consumption_doc_ok (coll s "consumption") &&
  ids_below (next_oid s) (coll s "item") &&
  ids_below (next_oid s) (coll s "consumption") &&
  (0 <=? next_oid s).

(** The names of the stored items, in storage order. *)
Definition item_names (s : Store) : list Val :=
  map (fun d => get d "name") (coll s "item").

(** The sum of a list of floats, added left to right from [0.0]. *)
Definition float_sum (xs : list float) : float :=
  fold_left PrimFloat.add xs 0%float.

(** Whether a field holds a given [str] is decidable. *)
#[global] Instance val_eq_str_dec (v : Val) (s : string) : Decision (v = VStr s).
Proof.
  destruct v as [|s'|]; [right; discriminate| |right; discriminate].
  destruct (decide (s' = s)) as [->|Hne]; [by left|].
  right. congruence.
Defined.

(** ** Schemas ([schemas.py]) *)

Module Item.
Record t := mk {
  name : string;
  unit : string;
  protein_per_unit : float
}.

(** The constraints of the fields: [protein_per_unit] has [gt=0]; [name]
    and [unit] are plain [str] fields. *)
Definition validate (item : t) : bool := (0 <? protein_per_unit item)%float.

Definition model_dump (item : t) : gmap string Val :=
  <["name" := VStr (name item)]>
    (<["unit" := VStr (unit item)]>
      (<["protein_per_unit" := VFloat (protein_per_unit item)]> ∅)).
End Item.

Module Consumption.
Record t := mk {
  date : date;
  item_id : string;
  quantity : float
}.

(** [quantity] has [gt=0]; [date] is a [datetime.date]. *)
Definition validate (entry : t) : bool :=
  date_valid (date entry) && (0 <? quantity entry)%float.
End Consumption.

Module ItemOut.
Record t := mk {
  id : string;
  name : string;
  unit : string;
  protein_per_unit : float
}.
End ItemOut.

Module ConsumptionOut.
Record t := mk {
  id : string;
  date : date;
  item_id : string;
  item_name : string;
  unit : string;
  quantity : float;
  protein_per_unit : float;
  protein_total : float
}.
End ConsumptionOut.

(** The body [list_consumptions] returns. *)
Module DayTotal.
Record t := mk {
  date : string;
  entries : list ConsumptionOut.t;
  total_protein : float
}.
End DayTotal.

(** ** Request handlers ([main.py]) *)

Section Handlers.

(** [float(s)] for a [str] [s], [None] when it raises [ValueError].  No
    handler stores a [str] under a key it later reads with [float], so the
    literal syntax is left open. *)
Variable float_of_str : string -> option float.

(** [float(v)]. *)
Definition py_float (v : Val) : result float :=
  match v with
  | VFloat f => Ok f
  | VStr s =>
      match float_of_str s with
      | Some f => Ok f
      | None => Raise Uncaught
      end
  | VNull => Raise Uncaught
  end.

(** [float(doc.get(key, 0))]. *)
Definition get_float (doc : Doc) (key : string) : result float :=
  match fields doc !! key with
  | Some v => py_float v
  | None => Ok 0%float
  end.

(** A [str] field of a response model takes a [str] and nothing else. *)
Definition as_str (v : Val) : result string :=
  match v with
  | VStr s => Ok s
  | _ => Raise Uncaught
  end.

(** [date.fromisoformat(v)]: [TypeError] unless [v] is a [str]. *)
Definition as_date (v : Val) : result date :=
  match v with
  | VStr s =>
      match fromisoformat s with
      | Some d => Ok d
      | None => Raise Uncaught
      end
  | _ => Raise Uncaught
  end.

Definition oid (id_str : string) : M ObjectId :=
  match ObjectId_parse id_str with
  | Some o => mret o
  | None => raise (HTTPException 400 "Invalid ID format")
  end.

Definition serialize_item (doc : Doc) : result ItemOut.t :=
  protein_per_unit ← get_float doc "protein_per_unit";
  name ← as_str (get doc "name");
  unit ← as_str (get doc "unit");
  mret (ItemOut.mk (ObjectId_str (_id doc)) name unit protein_per_unit).

(** [doc.get(...)] on the result of [find_one]: [AttributeError] on [None]. *)
Definition found (doc : option Doc) : M Doc :=
  match doc with
  | Some d => mret d
  | None => raise Uncaught
  end.

Definition create_item (item : Item.t) : M ItemOut.t :=
  existing ← find_one "item" (QStr "name" (Item.name item));
  match existing with
  | Some _ => raise (HTTPException 400 "Item with this name already exists")
  | None =>
      new_id ← create_document "item" (Item.model_dump item);
      o ← oid new_id;
      doc ← find_one "item" (QId o);
      d ← found doc;
      lift (serialize_item d)
  end.

Fixpoint serialize_items (docs : list Doc) : result (list ItemOut.t) :=
  match docs with
  | [] => mret []
  | d :: docs' =>
      x ← serialize_item d;
      xs ← serialize_items docs';
      mret (x :: xs)
  end.

Definition list_items : M (list ItemOut.t) :=
  docs ← get_documents "item" QAll;
  lift (serialize_items docs).

(** The [ConsumptionOut(...)] both consumption handlers build from a
    stored document. *)
Definition consumption_out (d : Doc) : result ConsumptionOut.t :=
  date ← as_date (get d "date");
  quantity ← get_float d "quantity";
  protein_per_unit ← get_float d "protein_per_unit";
  protein_total ← get_float d "protein_total";
  item_id ← as_str (get d "item_id");
  item_name ← as_str (get d "item_name");
  unit ← as_str (get d "unit");
  mret (ConsumptionOut.mk (ObjectId_str (_id d)) date item_id item_name unit
          quantity protein_per_unit protein_total).

Definition create_consumption (entry : Consumption.t) : M ConsumptionOut.t :=
  o ← oid (Consumption.item_id entry);
  found_item ← find_one "item" (QId o);
  match found_item with
  | None => raise (HTTPException 404 "Item not found")
  | Some item_doc =>
      protein_per_unit ← lift (get_float item_doc "protein_per_unit");
      let protein_total := (protein_per_unit * Consumption.quantity entry)%float in
      let payload : gmap string Val :=
        <["date" := VStr (isoformat (Consumption.date entry))]>
        (<["item_id" := VStr (Consumption.item_id entry)]>
        (<["item_name" := get item_doc "name"]>
        (<["unit" := get item_doc "unit"]>
        (<["quantity" := VFloat (Consumption.quantity entry)]>
        (<["protein_per_unit" := VFloat protein_per_unit]>
        (<["protein_total" := VFloat protein_total]> ∅)))))) in
      new_id ← create_document "consumption" payload;
      o' ← oid new_id;
      saved ← find_one "consumption" (QId o');
      d ← found saved;
      lift (consumption_out d)
  end.

(** The [for d in docs] loop of [list_consumptions], with its two
    accumulators. *)
Fixpoint list_loop (docs : list Doc) (entries : list ConsumptionOut.t)
    (total_protein : float) : result (list ConsumptionOut.t * float) :=
  match docs with
  | [] => Ok (entries, total_protein)
  | d :: docs' =>
      co ← consumption_out d;
      list_loop docs' (entries ++ [co])
        (total_protein + ConsumptionOut.protein_total co)%float
  end.

Definition list_consumptions (date_str : string) : M DayTotal.t :=
  match fromisoformat date_str with
  | None => raise (HTTPException 400 "Invalid date format. Use YYYY-MM-DD")
  | Some _ =>
      docs ← get_documents "consumption" (QStr "date" date_str);
      r ← lift (list_loop docs [] 0%float);
      mret (DayTotal.mk date_str r.1 (py_round r.2 2))
  end.

(** The [POST] routes as FastAPI serves them: the body is validated
    against its schema before the handler runs. *)
Definition post_items (item : Item.t) : M ItemOut.t :=
  if Item.validate item then create_item item
  else raise RequestValidationError.

Definition post_consumptions (entry : Consumption.t) : M ConsumptionOut.t :=
  if Consumption.validate entry then create_consumption entry
  else raise RequestValidationError.

(** ** Reachable stores

    One request to one of the four [/api] routes.  The handlers are taken
    on every argument of their parameter type; the [date] of a
    [Consumption] is a [datetime.date], hence a calendar date. *)
Inductive step : Store -> Store -> Prop :=
| step_create_item item s :
    step s (create_item item s).2
| step_list_items s :
    step s (list_items s).2
| step_create_consumption entry s :
    date_valid (Consumption.date entry) = true ->
    step s (create_consumption entry s).2
| step_list_consumptions date_str s :
    step s (list_consumptions date_str s).2.

Inductive reachable : Store -> Prop :=
| reachable_empty : reachable empty_store
| reachable_step s s' : reachable s -> step s s' -> reachable s'.

End Handlers.

(** ** A sample run

    The example of the specification: one item, one consumption of it. *)

(** A [float(str)] that accepts no literal; the sample run never calls it. *)
Definition float_of_str_none : string -> option float := fun _ => None.

Definition chicken : Item.t := Item.mk "Chicken Breast" "gm" 0.31.

Definition chicken_doc : Doc := mkDoc 0 (Item.model_dump chicken).

Definition lunch : Consumption.t :=
  Consumption.mk (mkdate 2024 1 15) "000000000000000000000000" 200.

Definition lunch_out : ConsumptionOut.t :=
  ConsumptionOut.mk "000000000000000000000001" (mkdate 2024 1 15)
    "000000000000000000000000" "Chicken Breast" "gm" 200 0.31 62.

(** The store after [chicken] is created, and after [lunch] is logged. *)
Definition store1 : Store := (create_item float_of_str_none chicken empty_store).2.

Definition store2 : Store := (create_consumption float_of_str_none lunch store1).2.

(** ** The routes, one request at a time

    A store served only through the four [/api] routes: every body has
    passed its schema. *)

Section Routes.

Variable float_of_str : string -> option float.

Inductive route_step : Store -> Store -> Prop :=
| route_post_items item s :
    route_step s (post_items float_of_str item s).2
| route_get_items s :
    route_step s (list_items float_of_str s).2
| route_post_consumptions entry s :
    route_step s (post_consumptions float_of_str entry s).2
| route_get_consumptions date_str s :
    route_step s (list_consumptions float_of_str date_str s).2.

Inductive served : Store -> Prop :=
| served_empty : served empty_store
| served_step s s' : served s -> route_step s s' -> served s'.

End Routes.

(** A stored number that passed a [gt=0] constraint. *)
Definition positive_field (key : string) (d : Doc) : bool :=
  match get d key with
  | VFloat f => (0 <? f)%float
  | _ => false
  end.

(** A stored consumption [c] is a snapshot of the stored item [i]: its
    [item_id] names [i], it carries [i]'s name, unit and protein content,
    and its total is that protein content times its quantity. *)
Definition snapshot_of (i c : Doc) : Prop :=
  exists sid p q,
    get c "item_id" = VStr sid /\ ObjectId_parse sid = Some (_id i) /\
    get c "item_name" = get i "name" /\
    get c "unit" = get i "unit" /\
    get i "protein_per_unit" = VFloat p /\
    get c "protein_per_unit" = VFloat p /\
    get c "quantity" = VFloat q /\
    get c "protein_total" = VFloat (p * q)%float.

(** ** The diagnostic route ([test_database]) *)

(** What looking up an attribute of an object gives. *)
Inductive attr :=
| NoAttr
| Attr (v : string)
| AttrRaises (msg : string).

(** The handle [database.db] as [test_database] uses it: its [name]
    attribute, and what [list_collection_names()] returns or the message
    of the exception it raises. *)
Record Database := mkDatabase {
  db_name : attr;
  list_collection_names : list string + string
}.

Module Diagnostic.
Record t := mk {
  backend : string;
  database : string;
  database_url : option string;
  database_name : option string;
  connection_status : string;
  collections : list string
}.
End Diagnostic.

(** A [str] is held as its UTF-8 bytes; bytes [10xxxxxx] continue the
    character before them. *)
Definition is_continuation (c : ascii) : bool :=
  (128 <=? ascii_code c) && (ascii_code c <? 192).

(** [s[:n]]: the first [n] characters. *)
Fixpoint py_take (n : nat) (s : string) : string :=
  match s with
  | EmptyString => EmptyString
  | String c s' =>
      if is_continuation c then String c (py_take n s')
      else match n with
           | O => EmptyString
           | S n' => String c (py_take n' s')
           end
  end.

(** The number of characters of a [str]. *)
Fixpoint py_len (s : string) : nat :=
  match s with
  | EmptyString => O
  | String c s' => if is_continuation c then py_len s' else S (py_len s')
  end.

(** [os.getenv(key)] as a condition: set, and not to the empty string. *)
Definition env_set (environ : string -> option string) (key : string) : bool :=
  match environ key with
  | Some EmptyString => false
  | Some _ => true
  | None => false
  end.

Definition test_database (db : option Database)
    (environ : string -> option string) : Diagnostic.t :=
  let response :=
    Diagnostic.mk "✅ Running" "❌ Not Available" None None "Not Connected" [] in
  let response :=
    match db with
    | Some db =>
        let response :=
          Diagnostic.mk (Diagnostic.backend response) "✅ Available"
            (Some "✅ Configured") (Diagnostic.database_name response)
            (Diagnostic.connection_status response) (Diagnostic.collections response) in
        match db_name db with
        | AttrRaises msg =>
            Diagnostic.mk (Diagnostic.backend response)
              ("❌ Error: " +:+ py_take 50 msg)
              (Diagnostic.database_url response) (Diagnostic.database_name response)
              (Diagnostic.connection_status response) (Diagnostic.collections response)
        | name =>
            let database_name :=
              match name with Attr v => v | _ => "✅ Connected" end in
            let response :=
              Diagnostic.mk (Diagnostic.backend response) (Diagnostic.database response)
                (Diagnostic.database_url response) (Some database_name)
                "Connected" (Diagnostic.collections response) in
            match list_collection_names db with
            | inl collections =>
                Diagnostic.mk (Diagnostic.backend response) "✅ Connected & Working"
                  (Diagnostic.database_url response) (Diagnostic.database_name response)
                  (Diagnostic.connection_status response) (take 10 collections)
            | inr msg =>
                Diagnostic.mk (Diagnostic.backend response)
                  ("⚠️  Connected but Error: " +:+ py_take 50 msg)
                  (Diagnostic.database_url response) (Diagnostic.database_name response)
                  (Diagnostic.connection_status response) (Diagnostic.collections response)
            end
        end
    | None =>
        Diagnostic.mk (Diagnostic.backend response) "⚠️  Available but not initialized"
          (Diagnostic.database_url response) (Diagnostic.database_name response)
          (Diagnostic.connection_status response) (Diagnostic.collections response)
    end in
  Diagnostic.mk (Diagnostic.backend response) (Diagnostic.database response)
    (Some (if env_set environ "DATABASE_URL" then "✅ Set" else "❌ Not Set"))
    (Some (if env_set environ "DATABASE_NAME" then "✅ Set" else "❌ Not Set"))
    (Diagnostic.connection_status response) (Diagnostic.collections response).

(** ** More sample data *)

(** The document [create_consumption] stores for [lunch]. *)
Definition lunch_doc : Doc :=
  mkDoc 1
    (<["date" := VStr "2024-01-15"]>
    (<["item_id" := VStr "000000000000000000000000"]>
    (<["item_name" := VStr "Chicken Breast"]>
    (<["unit" := VStr "gm"]>
    (<["quantity" := VFloat 200]>
    (<["protein_per_unit" := VFloat 0.31]>
    (<["protein_total" := VFloat 62]> ∅))))))).

Definition chicken_out : ItemOut.t :=
  ItemOut.mk "000000000000000000000000" "Chicken Breast" "gm" 0.31.

(** Documents no handler writes: an item without [protein_per_unit], an
    item without [name], a consumption with nothing but its [date]. *)
Definition rice_doc : Doc :=
  mkDoc 7 (<["name" := VStr "Rice"]> (<["unit" := VStr "cup"]> ∅)).

Definition nameless_doc : Doc := mkDoc 8 (<["unit" := VStr "gm"]> ∅).

Definition bare_doc : Doc := mkDoc 9 (<["date" := VStr "2024-01-15"]> ∅).

(** A store that holds such documents beside well-formed ones. *)
Definition foreign_store : Store :=
  mkStore (<["item" := [chicken_doc; nameless_doc]]>
           (<["consumption" := [lunch_doc; bare_doc]]> ∅)) 10.

(** * Properties *)

(** ** Sanity checks of the library models *)

Example isoformat_ex : isoformat (mkdate 2024 1 15) = "2024-01-15".
Proof. reflexivity. Qed.

Example fromisoformat_ex : fromisoformat "2024-01-15" = Some (mkdate 2024 1 15).
Proof. reflexivity. Qed.

Example fromisoformat_not_a_date : fromisoformat "not-a-date" = None.
Proof. reflexivity. Qed.

Example fromisoformat_feb30 : fromisoformat "2023-02-30" = None.
Proof. reflexivity. Qed.

Example fromisoformat_leap_day : fromisoformat "2024-02-29" = Some (mkdate 2024 2 29).
Proof. reflexivity. Qed.

Example ObjectId_str_ex : ObjectId_str 255 = "0000000000000000000000ff".
Proof. reflexivity. Qed.

Example ObjectId_parse_upper : ObjectId_parse "0000000000000000000000FF" = Some 255.
Proof. reflexivity. Qed.

Example ObjectId_parse_short : ObjectId_parse "ff" = None.
Proof. reflexivity. Qed.

(** [round] agrees with the interpreter on the usual test values. *)
Example py_round_2_675 : py_round 2.675 2 = 2.67%float.
Proof. vm_compute. reflexivity. Qed.

Example py_round_tie_even : py_round 0.125 2 = 0.12%float.
Proof. vm_compute. reflexivity. Qed.

Example py_round_tie_odd : py_round 0.375 2 = 0.38%float.
Proof. vm_compute. reflexivity. Qed.

Example py_round_1_005 : py_round 1.005 2 = 1%float.
Proof. vm_compute. reflexivity. Qed.

Example py_round_large : py_round 1e22 2 = 1e22%float.
Proof. vm_compute. reflexivity. Qed.

Example py_round_neg_zero : py_round (-0.001) 2 = (-0)%float.
Proof. vm_compute. reflexivity. Qed.

Example py_round_zero : py_round 0 2 = 0%float.
Proof. vm_compute. reflexivity. Qed.

Example py_round_infinity : py_round infinity 2 = infinity.
Proof. vm_compute. reflexivity. Qed.

(** The example of the specification: [0.31 * 200 == 62.0], and the day's
    listing holds that one entry with total [62.0]. *)
Example sample_create_consumption :
  create_consumption float_of_str_none lunch store1 = (Ok lunch_out, store2).
Proof. vm_compute. reflexivity. Qed.

Example sample_list_consumptions :
  list_consumptions float_of_str_none "2024-01-15" store2 =
    (Ok (DayTotal.mk "2024-01-15" [lunch_out] 62), store2).
Proof. vm_compute. reflexivity. Qed.

Example sample_list_items :
  list_items float_of_str_none store2 =
    (Ok [ItemOut.mk "000000000000000000000000" "Chicken Breast" "gm" 0.31], store2).
Proof. vm_compute. reflexivity. Qed.

(** ** Digit strings *)

Lemma parse_digits_app dig b l1 l2 acc :
  parse_digits dig b (l1 ++ l2) acc =
  match parse_digits dig b l1 acc with
  | Some a => parse_digits dig b l2 a
  | None => None
  end.
Proof.
  revert acc. induction l1 as [|c l1 IH]; intros acc; simpl; [done|].
  destruct (dig c); [apply IH | done].
Qed.

Lemma length_print_digits chr b k n : length (print_digits chr b k n) = k.
Proof.
  revert n. induction k as [|k IH]; intros n; simpl; [done|].
  rewrite length_app, IH. simpl. lia.
Qed.

Section Numerals.
Variables (dig : ascii -> option Z) (chr : Z -> ascii) (b : Z).
Hypothesis b_pos : 0 < b.

Lemma parse_print_digits :
  (forall d, 0 <= d < b -> dig (chr d) = Some d) ->
  forall k n acc, 0 <= n < b ^ Z.of_nat k ->
    parse_digits dig b (print_digits chr b k n) acc = Some (acc * b ^ Z.of_nat k + n).
Proof.
  intros Hdc. induction k as [|k IH]; intros n acc Hn.
  - simpl in *. f_equal. lia.
  - rewrite Nat2Z.inj_succ, Z.pow_succ_r in * by lia.
    simpl. rewrite parse_digits_app, (IH (n / b)).
    + simpl. rewrite Hdc by (apply Z.mod_pos_bound; lia).
      f_equal. pose proof (Z.div_mod n b). lia.
    + split; [apply Z.div_pos; lia|].
      apply Z.div_lt_upper_bound; lia.
Qed.

Lemma print_parse_digits :
  (forall c d, dig c = Some d -> chr d = c /\ 0 <= d < b) ->
  forall cs acc n, parse_digits dig b cs acc = Some n ->
    let r := n - acc * b ^ Z.of_nat (length cs) in
    0 <= r < b ^ Z.of_nat (length cs) /\ print_digits chr b (length cs) r = cs.
Proof.
  intros Hcd. induction cs as [|c cs IH] using rev_ind; intros acc n Hp r.
  - simpl in *. injection Hp as <-. subst r. split; [lia | done].
  - rewrite parse_digits_app in Hp.
    destruct (parse_digits dig b cs acc) as [n'|] eqn:Hn'; [|done].
    simpl in Hp. destruct (dig c) as [d|] eqn:Hd; [|done].
    injection Hp as <-.
    destruct (Hcd _ _ Hd) as [<- Hdb].
    destruct (IH _ _ Hn') as [Hr' Hpr].
    subst r. rewrite length_app, Nat.add_comm. simpl length.
    rewrite Nat2Z.inj_succ, Z.pow_succ_r by lia.
    set (p := b ^ Z.of_nat (length cs)) in *.
    set (r' := n' - acc * p) in *.
    assert (E : n' * b + d - acc * (b * p) = d + r' * b) by (subst r'; lia).
    rewrite E. split; [nia|].
    simpl. rewrite Z.div_add, Z.div_small, Z.add_0_l by lia.
    rewrite Z_mod_plus_full, Z.mod_small by lia.
    by rewrite Hpr.
Qed.
End Numerals.

Lemma hex_digit_char d : 0 <= d < 16 -> hex_digit (hex_char d) = Some d.
Proof.
  intros H.
  assert (d = 0 \/ d = 1 \/ d = 2 \/ d = 3 \/ d = 4 \/ d = 5 \/ d = 6 \/ d = 7 \/
          d = 8 \/ d = 9 \/ d = 10 \/ d = 11 \/ d = 12 \/ d = 13 \/ d = 14 \/ d = 15)
    as Hc by lia.
  repeat destruct Hc as [-> | Hc]; try subst d; reflexivity.
Qed.

Lemma dec_digit_char d : 0 <= d < 10 -> dec_digit (dec_char d) = Some d.
Proof.
  intros H.
  assert (d = 0 \/ d = 1 \/ d = 2 \/ d = 3 \/ d = 4 \/ d = 5 \/ d = 6 \/ d = 7 \/
          d = 8 \/ d = 9) as Hc by lia.
  repeat destruct Hc as [-> | Hc]; try subst d; reflexivity.
Qed.

Lemma dec_char_digit c d : dec_digit c = Some d -> dec_char d = c /\ 0 <= d < 10.
Proof.
  destruct c as [[] [] [] [] [] [] [] []]; intros H; vm_compute in H;
    try discriminate H; injection H as <-; (split; [reflexivity | lia]).
Qed.

(** [ObjectId(str(o)) == o] for every 12-byte identifier. *)
Lemma ObjectId_parse_str o :
  0 <= o < 2 ^ 96 -> ObjectId_parse (ObjectId_str o) = Some o.
Proof.
  intros Ho. unfold ObjectId_parse, ObjectId_str.
  rewrite list_ascii_of_string_of_list_ascii, length_print_digits.
  change (24 =? 24)%nat with true. cbv iota.
  rewrite (parse_print_digits hex_digit hex_char 16) by
    (try apply hex_digit_char; try lia; exact Ho).
  f_equal.
Qed.

Lemma print_digits_2 chr b n : exists c1 c2, print_digits chr b 2 n = [c1; c2].
Proof. simpl. eauto. Qed.

Lemma print_digits_4 chr b n :
  exists c1 c2 c3 c4, print_digits chr b 4 n = [c1; c2; c3; c4].
Proof. simpl. eauto 6. Qed.

Lemma date_valid_bounds d :
  date_valid d = true ->
  1 <= year d <= 9999 /\ 1 <= month d <= 12 /\ 1 <= day d <= 31.
Proof.
  unfold date_valid, days_in_month. intros H.
  repeat (apply andb_prop in H; destruct H as [H ?]).
  repeat case_match; lia.
Qed.

(** [date.fromisoformat(d.isoformat()) == d]. *)
Lemma fromisoformat_isoformat d :
  date_valid d = true -> fromisoformat (isoformat d) = Some d.
Proof.
  intros Hv. pose proof (date_valid_bounds d Hv) as (Hy & Hm & Hd).
  unfold fromisoformat, isoformat.
  rewrite list_ascii_of_string_of_list_ascii.
  destruct (print_digits_4 dec_char 10 (year d)) as (y1 & y2 & y3 & y4 & Ey).
  destruct (print_digits_2 dec_char 10 (month d)) as (m1 & m2 & Em).
  destruct (print_digits_2 dec_char 10 (day d)) as (d1 & d2 & Ed).
  rewrite Ey, Em, Ed. cbn [app]. cbn beta iota.
  change (Ascii.eqb "-" "-") with true. cbn [andb].
  rewrite <- Ey, <- Em, <- Ed.
  rewrite !(parse_print_digits dec_digit dec_char 10) by
    (try apply dec_digit_char; lia).
  rewrite !Z.mul_0_l, !Z.add_0_l. cbv zeta.
  destruct d as [y m dd]; cbn [year month day] in *. by rewrite Hv.
Qed.

(** A string [date.fromisoformat] accepts is the [isoformat] of the date
    it returns, and that date is a calendar date. *)
Lemma isoformat_fromisoformat s d :
  fromisoformat s = Some d -> isoformat d = s /\ date_valid d = true.
Proof.
  unfold fromisoformat. intros H.
  destruct (list_ascii_of_string s) as [|y1 [|y2 [|y3 [|y4 [|s1 [|m1 [|m2 [|s2 [|d1 [|d2 [|]]]]]]]]]]] eqn:Es;
    try discriminate H.
  destruct (Ascii.eqb s1 "-") eqn:E1; [|discriminate H].
  destruct (Ascii.eqb s2 "-") eqn:E2; [|discriminate H].
  apply Ascii.eqb_eq in E1, E2. subst s1 s2. cbn [andb] in H.
  destruct (parse_digits dec_digit 10 [y1; y2; y3; y4] 0) as [y|] eqn:Py; [|discriminate H].
  destruct (parse_digits dec_digit 10 [m1; m2] 0) as [m|] eqn:Pm; [|discriminate H].
  destruct (parse_digits dec_digit 10 [d1; d2] 0) as [dd|] eqn:Pd; [|discriminate H].
  cbv zeta in H. destruct (date_valid (mkdate y m dd)) eqn:Hv; [|discriminate H].
  injection H as <-. split; [|done].
  apply (print_parse_digits dec_digit dec_char 10) in Py, Pm, Pd;
    try apply dec_char_digit; try lia.
  rewrite Z.mul_0_l, Z.sub_0_r in Py, Pm, Pd.
  destruct Py as [_ Py], Pm as [_ Pm], Pd as [_ Pd].
  unfold isoformat. cbn [year month day].
  change (length [y1; y2; y3; y4]) with 4%nat in Py.
  change (length [m1; m2]) with 2%nat in Pm.
  change (length [d1; d2]) with 2%nat in Pd.
  rewrite Py, Pm, Pd. cbn [app].
  rewrite <- Es. apply string_of_list_ascii_of_string.
Qed.

(** [date.fromisoformat] fails exactly on the strings that are not the
    [YYYY-MM-DD] form of a calendar date. *)
Lemma fromisoformat_None_iff s :
  fromisoformat s = None <-> forall d, date_valid d = true -> isoformat d <> s.
Proof.
  split.
  - intros H d Hd <-. by rewrite fromisoformat_isoformat in H.
  - intros H. destruct (fromisoformat s) as [d|] eqn:E; [|done].
    apply isoformat_fromisoformat in E as [E Hv]. by destruct (H d Hv).
Qed.

(** ** The store *)

Lemma coll_insert m k name docs name' :
  coll (mkStore (<[name := docs]> m) k) name' =
  if decide (name = name') then docs else coll (mkStore m k) name'.
Proof.
  unfold coll. cbn [colls]. rewrite lookup_insert. by case_decide.
Qed.

Lemma coll_create_document name data s name' :
  coll (create_document name data s).2 name' =
  if decide (name = name') then coll s name ++ [mkDoc (next_oid s) data]
  else coll s name'.
Proof. unfold create_document. cbn [snd]. rewrite coll_insert. by destruct s. Qed.

Lemma next_oid_create_document name data s :
  next_oid (create_document name data s).2 = next_oid s + 1.
Proof. reflexivity. Qed.

Lemma ids_below_spec n docs :
  ids_below n docs = true <-> forall d, d ∈ docs -> _id d < n.
Proof.
  unfold ids_below. rewrite forallb_forall. split; intros H d Hd.
  - apply list_elem_of_In, H in Hd. lia.
  - apply list_elem_of_In, H in Hd. lia.
Qed.

Lemma ids_below_mono n n' docs :
  n <= n' -> ids_below n docs = true -> ids_below n' docs = true.
Proof.
  rewrite !ids_below_spec. intros Hn H d Hd. specialize (H d Hd). lia.
Qed.

Lemma forallb_snoc {A} (f : A -> bool) l x :
  forallb f (l ++ [x]) = forallb f l && f x.
Proof. rewrite forallb_app. simpl. by rewrite andb_true_r. Qed.

(** A lookup by a fresh [_id] finds the document just appended. *)
Lemma filter_id_snoc o data docs :
  ids_below o docs = true ->
  List.filter (matches (QId o)) (docs ++ [mkDoc o data]) = [mkDoc o data].
Proof.
  intros H. rewrite List.filter_app. simpl. rewrite Z.eqb_refl.
  replace (List.filter _ docs) with (@nil Doc); [done|].
  symmetry. induction docs as [|d docs IH]; [done|].
  simpl in *. apply andb_prop in H as [Hd Hds].
  destruct (_id d =? o) eqn:E; [lia | by apply IH].
Qed.

Lemma matches_QStr key value d :
  matches (QStr key value) d = true <-> get d key = VStr value.
Proof.
  unfold matches, get. destruct (fields d !! key) as [[]|]; simpl;
    rewrite ?String.eqb_eq; split; (congruence || discriminate || idtac).
Qed.

Lemma head_filter_None {A} (f : A -> bool) l :
  head (List.filter f l) = None <-> forall x, x ∈ l -> f x = false.
Proof.
  induction l as [|a l IH]; simpl.
  - split; [intros _ x Hx; by apply elem_of_nil in Hx | done].
  - destruct (f a) eqn:E; simpl.
    + split; [done|]. intros H. specialize (H a (list_elem_of_here _ _)). congruence.
    + rewrite IH. split; intros H x Hx.
      * apply elem_of_cons in Hx as [->|Hx]; auto.
      * apply H. by right.
Qed.

Lemma head_filter_Some {A} (f : A -> bool) l x :
  head (List.filter f l) = Some x -> x ∈ l /\ f x = true.
Proof.
  intros H. assert (x ∈ List.filter f l) as Hx.
  { destruct (List.filter f l); simplify_eq/=. left. }
  apply list_elem_of_In, filter_In in Hx as [Hx ?]. by apply list_elem_of_In in Hx.
Qed.

(** ** Values and documents *)

Ltac lookup_fields :=
  unfold get; cbn [fields];
  repeat first [ rewrite lookup_insert_eq | rewrite lookup_insert_ne by discriminate ];
  cbn [default from_option id].

Lemma is_str_inv v : is_str v = true -> exists s, v = VStr s.
Proof. destruct v; try discriminate. eauto. Qed.

Lemma is_float_get d key :
  is_float (get d key) = true -> exists f, fields d !! key = Some (VFloat f).
Proof.
  unfold get. destruct (fields d !! key) as [[]|]; try discriminate. eauto.
Qed.


Lemma item_doc_ok_model_dump o item : item_doc_ok (mkDoc o (Item.model_dump item)) = true.
Proof. reflexivity. Qed.


(** ** The query by a [str] field is string equality on that field *)


Lemma count_unique (outs : list ItemOut.t) n :
  NoDup (map ItemOut.name outs) ->
  n ∈ map ItemOut.name outs ->
  length (List.filter (fun o => String.eqb (ItemOut.name o) n) outs) = 1%nat.
Proof.
  induction outs as [|o outs IH]; intros Hnd Hin.
  - by apply elem_of_nil in Hin.
  - cbn [map] in *. apply NoDup_cons in Hnd as [Hno Hnd].
    cbn [List.filter]. destruct (String.eqb (ItemOut.name o) n) eqn:E.
    + apply String.eqb_eq in E. subst n. cbn [length]. f_equal.
      clear IH Hin Hnd. induction outs as [|o' outs IH]; [done|].
      cbn [map] in Hno. apply not_elem_of_cons in Hno as [Hne Hno].
      cbn [List.filter]. destruct (String.eqb_spec (ItemOut.name o') (ItemOut.name o));
        [congruence | by apply IH].
    + apply String.eqb_neq in E. apply elem_of_cons in Hin as [->|Hin]; [done|].
      by apply IH.
Qed.


(** ** The handlers, step by step *)

Section Properties.
Variable fos : string -> option float.

Lemma create_item_unfold item s :
  create_item fos item s =
  match head (List.filter (matches (QStr "name" (Item.name item))) (coll s "item")) with
  | Some _ => (Raise (HTTPException 400 "Item with this name already exists"), s)
  | None =>
      let s' := (create_document "item" (Item.model_dump item) s).2 in
      match ObjectId_parse (ObjectId_str (next_oid s)) with
      | None => (Raise (HTTPException 400 "Invalid ID format"), s')
      | Some o =>
          match head (List.filter (matches (QId o)) (coll s' "item")) with
          | None => (Raise Uncaught, s')
          | Some d => (serialize_item fos d, s')
          end
      end
  end.
Proof.
  unfold create_item, mbind, M_bind, find_one, oid, found, lift, raise, mret, M_ret.
  destruct (head _); [done|].
  unfold create_document at 1. cbv beta iota zeta.
  destruct (ObjectId_parse _); [|done].
  by destruct (head _).
Qed.

Lemma create_consumption_unfold entry s :
  create_consumption fos entry s =
  match ObjectId_parse (Consumption.item_id entry) with
  | None => (Raise (HTTPException 400 "Invalid ID format"), s)
  | Some o =>
      match head (List.filter (matches (QId o)) (coll s "item")) with
      | None => (Raise (HTTPException 404 "Item not found"), s)
      | Some item_doc =>
          match get_float fos item_doc "protein_per_unit" with
          | Raise e => (Raise e, s)
          | Ok protein_per_unit =>
              let payload : gmap string Val :=
                <["date" := VStr (isoformat (Consumption.date entry))]>
                (<["item_id" := VStr (Consumption.item_id entry)]>
                (<["item_name" := get item_doc "name"]>
                (<["unit" := get item_doc "unit"]>
                (<["quantity" := VFloat (Consumption.quantity entry)]>
                (<["protein_per_unit" := VFloat protein_per_unit]>
                (<["protein_total" :=
                     VFloat (protein_per_unit * Consumption.quantity entry)%float]> ∅)))))) in
              let s' := (create_document "consumption" payload s).2 in
              match ObjectId_parse (ObjectId_str (next_oid s)) with
              | None => (Raise (HTTPException 400 "Invalid ID format"), s')
              | Some o' =>
                  match head (List.filter (matches (QId o')) (coll s' "consumption")) with
                  | None => (Raise Uncaught, s')
                  | Some d => (consumption_out fos d, s')
                  end
              end
          end
      end
  end.
Proof.
  unfold create_consumption, mbind, M_bind, find_one, oid, found, lift, raise, mret, M_ret.
  destruct (ObjectId_parse (Consumption.item_id entry)); [|done].
  destruct (head _); [|done].
  destruct (get_float _ _ _); [|done].
  unfold create_document at 1. cbv beta iota zeta.
  destruct (ObjectId_parse _); [|done].
  by destruct (head _).
Qed.

Lemma list_items_unfold s :
  list_items fos s = (serialize_items fos (coll s "item"), s).
Proof.
  unfold list_items, mbind, M_bind, get_documents, lift.
  cbv beta iota. f_equal. f_equal.
  induction (coll s "item") as [|d l IH]; [done|]. simpl. by rewrite IH.
Qed.

Lemma list_consumptions_unfold date_str s :
  list_consumptions fos date_str s =
  match fromisoformat date_str with
  | None => (Raise (HTTPException 400 "Invalid date format. Use YYYY-MM-DD"), s)
  | Some _ =>
      match list_loop fos (List.filter (matches (QStr "date" date_str))
                             (coll s "consumption")) [] 0%float with
      | Ok r => (Ok (DayTotal.mk date_str r.1 (py_round r.2 2)), s)
      | Raise e => (Raise e, s)
      end
  end.
Proof.
  unfold list_consumptions, mbind, M_bind, get_documents, lift, raise, mret, M_ret.
  destruct (fromisoformat date_str); [|done].
  cbv beta iota. by destruct (list_loop _ _ _ _).
Qed.


(** ** Documents the handlers write are documents they can read *)

Lemma get_float_ok d key f :
  fields d !! key = Some (VFloat f) -> get_float fos d key = Ok f.
Proof. unfold get_float. by intros ->. Qed.

Lemma serialize_item_ok d :
  item_doc_ok d = true ->
  exists n u p,
    get d "name" = VStr n /\ get d "unit" = VStr u /\
    get_float fos d "protein_per_unit" = Ok p /\
    serialize_item fos d = Ok (ItemOut.mk (ObjectId_str (_id d)) n u p).
Proof.
  unfold item_doc_ok. intros H.
  apply andb_prop in H as [H Hp]. apply andb_prop in H as [Hn Hu].
  apply is_str_inv in Hn as [n Hn]. apply is_str_inv in Hu as [u Hu].
  apply is_float_get in Hp as [p Hp]. apply get_float_ok in Hp.
  exists n, u, p. unfold serialize_item. rewrite Hn, Hu, Hp. done.
Qed.


(** What a [ConsumptionOut] built from a document says about it. *)
Lemma consumption_out_inv d out :
  consumption_out fos d = Ok out ->
  ConsumptionOut.id out = ObjectId_str (_id d) /\
  get d "date" = VStr (isoformat (ConsumptionOut.date out)) /\
  get d "item_id" = VStr (ConsumptionOut.item_id out) /\
  get d "item_name" = VStr (ConsumptionOut.item_name out) /\
  get d "unit" = VStr (ConsumptionOut.unit out) /\
  get_float fos d "quantity" = Ok (ConsumptionOut.quantity out) /\
  get_float fos d "protein_per_unit" = Ok (ConsumptionOut.protein_per_unit out) /\
  get_float fos d "protein_total" = Ok (ConsumptionOut.protein_total out).
Proof.
  unfold consumption_out, as_date, as_str. intros H.
  destruct (get d "date") as [|s|]; try discriminate H.
  destruct (fromisoformat s) as [dt|] eqn:Es; try discriminate H.
  apply isoformat_fromisoformat in Es as [<- _]. simpl in H.
  destruct (get_float fos d "quantity"); try discriminate H.
  destruct (get_float fos d "protein_per_unit"); try discriminate H.
  destruct (get_float fos d "protein_total"); try discriminate H.
  destruct (get d "item_id"); try discriminate H.
  destruct (get d "item_name"); try discriminate H.
  destruct (get d "unit"); try discriminate H.
  simpl in H. injection H as <-. simpl. done.
Qed.

Lemma store_ok_create_document name data s :
  store_ok s = true ->
  (name = "item" -> item_doc_ok (mkDoc (next_oid s) data) = true) ->
  (name = "consumption" -> consumption_doc_ok (mkDoc (next_oid s) data) = true) ->
  store_ok (create_document name data s).2 = true.
Proof.
  unfold store_ok. intros H Hi Hc.
  repeat (apply andb_prop in H as [H ?]).
  rewrite !coll_create_document, next_oid_create_document.
  assert (forall docs, ids_below (next_oid s) docs = true ->
            ids_below (next_oid s + 1) docs = true) as Hmono
    by (intros docs; apply ids_below_mono; lia).
  assert (forall docs, ids_below (next_oid s) docs = true ->
            ids_below (next_oid s + 1) (docs ++ [mkDoc (next_oid s) data]) = true) as Hsnoc.
  { intros docs Hd. unfold ids_below. rewrite forallb_snoc.
    apply andb_true_intro. split; [by apply Hmono|]. cbn [_id]. lia. }
  repeat (apply andb_true_intro; split); try lia;
    repeat case_decide; subst; auto;
    rewrite forallb_snoc; apply andb_true_intro; auto.
Qed.

Lemma create_item_store_ok item s :
  store_ok s = true -> store_ok (create_item fos item s).2 = true.
Proof.
  intros H. rewrite create_item_unfold.
  assert (store_ok (create_document "item" (Item.model_dump item) s).2 = true) as H'.
  { apply store_ok_create_document; [done| |discriminate].
    intros _. apply item_doc_ok_model_dump. }
  cbv zeta. repeat case_match; done.
Qed.

Lemma store_ok_parts s :
  store_ok s = true ->
  forallb item_doc_ok (coll s "item") = true /\
  forallb consumption_doc_ok (coll s "consumption") = true /\
  ids_below (next_oid s) (coll s "item") = true /\
  ids_below (next_oid s) (coll s "consumption") = true /\
  0 <= next_oid s.
Proof.
  unfold store_ok. intros H. repeat (apply andb_prop in H as [H ?]).
  repeat split; try done. lia.
Qed.

Lemma store_ok_item_doc s d :
  store_ok s = true -> d ∈ coll s "item" -> item_doc_ok d = true.
Proof.
  intros (H & _)%store_ok_parts Hd.
  rewrite forallb_forall in H. by apply H, list_elem_of_In.
Qed.

Lemma store_ok_consumption_doc s d :
  store_ok s = true -> d ∈ coll s "consumption" -> consumption_doc_ok d = true.
Proof.
  intros (_ & H & _)%store_ok_parts Hd.
  rewrite forallb_forall in H. by apply H, list_elem_of_In.
Qed.

(** The payload [create_consumption] builds from a stored item is a
    well-formed consumption document. *)
Lemma payload_ok o (dt : date) item_id (item_doc : Doc) q p t :
  date_valid dt = true ->
  item_doc_ok item_doc = true ->
  consumption_doc_ok (mkDoc o
    (<["date" := VStr (isoformat dt)]>
    (<["item_id" := VStr item_id]>
    (<["item_name" := get item_doc "name"]>
    (<["unit" := get item_doc "unit"]>
    (<["quantity" := VFloat q]>
    (<["protein_per_unit" := VFloat p]>
    (<["protein_total" := VFloat t]> ∅)))))))) = true.
Proof.
  intros Hdt Hok. unfold item_doc_ok in Hok.
  apply andb_prop in Hok as [Hok _]. apply andb_prop in Hok as [Hn Hu].
  apply is_str_inv in Hn as [n Hn]. apply is_str_inv in Hu as [u Hu].
  rewrite Hn, Hu. unfold consumption_doc_ok. lookup_fields.
  simpl. by rewrite (fromisoformat_isoformat _ Hdt).
Qed.

Lemma create_consumption_store_ok entry s :
  date_valid (Consumption.date entry) = true ->
  store_ok s = true -> store_ok (create_consumption fos entry s).2 = true.
Proof.
  intros Hdt H. rewrite create_consumption_unfold.
  destruct (ObjectId_parse _) as [o|]; [|done].
  destruct (head _) as [item_doc|] eqn:Hh; [|done].
  destruct (get_float _ _ _) as [p|]; [|done].
  apply head_filter_Some in Hh as [Hin _].
  cbv zeta.
  match goal with |- context [create_document ?n ?pl s] =>
    assert (store_ok (create_document n pl s).2 = true) as H' end.
  { apply store_ok_create_document; [done|discriminate|].
    intros _. apply payload_ok; eauto using store_ok_item_doc. }
  repeat case_match; done.
Qed.

Lemma list_items_store s : (list_items fos s).2 = s.
Proof. by rewrite list_items_unfold. Qed.

Lemma list_consumptions_store date_str s : (list_consumptions fos date_str s).2 = s.
Proof. rewrite list_consumptions_unfold. by repeat case_match. Qed.

(** *** Item names stay distinct *)

Lemma item_names_create_item item s :
  NoDup (item_names s) -> NoDup (item_names (create_item fos item s).2).
Proof.
  intros H. rewrite create_item_unfold.
  destruct (head _) eqn:Hh; [done|].
  assert (NoDup (item_names (create_document "item" (Item.model_dump item) s).2)) as H'.
  { unfold item_names. rewrite coll_create_document.
    rewrite decide_True by done. rewrite map_app. simpl.
    apply NoDup_app. split; [done|]. split; [|apply NoDup_singleton].
    intros v Hv Hv'. apply list_elem_of_singleton in Hv'. subst v.
    apply list_elem_of_fmap in Hv as (d & Hd & Hin).
    rewrite head_filter_None in Hh. specialize (Hh d Hin).
    assert (matches (QStr "name" (Item.name item)) d = true); [|congruence].
    apply matches_QStr. rewrite <- Hd. reflexivity. }
  cbv zeta. repeat case_match; done.
Qed.

Lemma item_names_create_consumption entry s :
  item_names (create_consumption fos entry s).2 = item_names s.
Proof.
  rewrite create_consumption_unfold.
  assert (forall pl, item_names (create_document "consumption" pl s).2 = item_names s) as H'.
  { intros pl. unfold item_names. rewrite coll_create_document.
    by rewrite decide_False by discriminate. }
  cbv zeta. repeat case_match; cbn [snd]; auto.
Qed.

Lemma step_invariant s s' :
  step fos s s' ->
  store_ok s = true /\ NoDup (item_names s) ->
  store_ok s' = true /\ NoDup (item_names s').
Proof.
  intros Hstep [Hok Hnd]. destruct Hstep.
  - split; [by apply create_item_store_ok | by apply item_names_create_item].
  - by rewrite list_items_store.
  - split; [by apply create_consumption_store_ok |].
    by rewrite item_names_create_consumption.
  - by rewrite list_consumptions_store.
Qed.

Lemma reachable_invariant s :
  reachable fos s -> store_ok s = true /\ NoDup (item_names s).
Proof.
  induction 1 as [|s s' _ IH Hstep].
  - split; [reflexivity | constructor].
  - eauto using step_invariant.
Qed.


Lemma serialize_items_ok docs :
  forallb item_doc_ok docs = true ->
  exists outs,
    serialize_items fos docs = Ok outs /\
    map (fun o => VStr (ItemOut.name o)) outs = map (fun d => get d "name") docs.
Proof.
  induction docs as [|d docs IH]; intros H.
  - by exists [].
  - cbn [forallb] in H. apply andb_prop in H as [Hd Hds].
    destruct (IH Hds) as (outs & Houts & Hnames).
    destruct (serialize_item_ok d Hd) as (n & u & p & Hn & _ & _ & Hser).
    exists (ItemOut.mk (ObjectId_str (_id d)) n u p :: outs).
    cbn [serialize_items]. rewrite Hser, Houts. split; [done|].
    cbn [map ItemOut.name]. by rewrite Hn, Hnames.
Qed.

Lemma serialize_item_raise d e : serialize_item fos d = Raise e -> e = Uncaught.
Proof.
  unfold serialize_item, as_str, get_float, py_float. intros H.
  repeat (case_match; simplify_eq/=); done.
Qed.

Lemma consumption_out_payload o (dt : date) item_id n u q p t :
  date_valid dt = true ->
  consumption_out fos (mkDoc o
    (<["date" := VStr (isoformat dt)]>
    (<["item_id" := VStr item_id]>
    (<["item_name" := VStr n]>
    (<["unit" := VStr u]>
    (<["quantity" := VFloat q]>
    (<["protein_per_unit" := VFloat p]>
    (<["protein_total" := VFloat t]> ∅)))))))) =
  Ok (ConsumptionOut.mk (ObjectId_str o) dt item_id n u q p t).
Proof.
  intros Hdt. unfold consumption_out, get_float. lookup_fields.
  cbn [as_date]. rewrite (fromisoformat_isoformat _ Hdt). reflexivity.
Qed.




(** ** The claims *)

(** C1.  When [item_id] resolves to a stored item, [create_consumption]
    stores and returns a record whose [protein_total] is the item's
    [protein_per_unit], as read at creation time, times the request's
    [quantity]; the record also carries that [protein_per_unit] and the
    item's [name] and [unit]. *)
Theorem create_consumption_protein_total entry s o item_doc :
  store_ok s = true ->
  next_oid s < 2 ^ 96 ->
  date_valid (Consumption.date entry) = true ->
  ObjectId_parse (Consumption.item_id entry) = Some o ->
  head (List.filter (matches (QId o)) (coll s "item")) = Some item_doc ->
  exists ppu rec out s',
    create_consumption fos entry s = (Ok out, s') /\
    coll s' "consumption" = coll s "consumption" ++ [rec] /\
    get item_doc "protein_per_unit" = VFloat ppu /\
    get rec "protein_per_unit" = VFloat ppu /\
    get rec "protein_total" = VFloat (ppu * Consumption.quantity entry)%float /\
    get rec "item_name" = get item_doc "name" /\
    get rec "unit" = get item_doc "unit" /\
    ConsumptionOut.id out = ObjectId_str (_id rec) /\
    ConsumptionOut.protein_per_unit out = ppu /\
    ConsumptionOut.protein_total out = (ppu * Consumption.quantity entry)%float /\
    VStr (ConsumptionOut.item_name out) = get item_doc "name" /\
    VStr (ConsumptionOut.unit out) = get item_doc "unit".
Proof.
  intros Hok Hlt Hdt Ho Hitem.
  destruct (store_ok_parts s Hok) as (_ & _ & _ & Hids & Hnn).
  pose proof (head_filter_Some _ _ _ Hitem) as [Hin _].
  pose proof (store_ok_item_doc s item_doc Hok Hin) as Hdoc.
  destruct (serialize_item_ok item_doc Hdoc) as (n & u & p & Hn & Hu & Hp & _).
  assert (get item_doc "protein_per_unit" = VFloat p) as Hget.
  { unfold item_doc_ok in Hdoc. apply andb_prop in Hdoc as [_ Hf].
    apply is_float_get in Hf as [f Hf]. unfold get. rewrite Hf.
    rewrite (get_float_ok _ _ _ Hf) in Hp. by injection Hp as ->. }
  rewrite create_consumption_unfold, Ho, Hitem, Hp. cbv zeta.
  rewrite ObjectId_parse_str by lia.
  rewrite coll_create_document, decide_True by done.
  rewrite filter_id_snoc by done. cbn [head].
  rewrite Hn, Hu, consumption_out_payload by done.
  eexists p, _, _, _. split; [reflexivity|].
  rewrite coll_create_document, decide_True by done.
  split; [reflexivity|]. split; [done|].
  repeat split; lookup_fields; reflexivity.
Qed.



(** C4.  In every reachable store no two items share a [name]; and after
    a valid item is posted, the item listing holds exactly one item of
    that name. *)
Theorem item_names_unique s item :
  reachable fos s ->
  Item.validate item = true ->
  NoDup (item_names s) /\
  exists outs,
    list_items fos (post_items fos item s).2 = (Ok outs, (post_items fos item s).2) /\
    length (List.filter (fun o => String.eqb (ItemOut.name o) (Item.name item)) outs)
      = 1%nat.
Proof.
  intros Hr Hv. split; [by apply reachable_invariant|].
  unfold post_items. rewrite Hv.
  assert (reachable fos (create_item fos item s).2) as Hr'
    by (eapply reachable_step; [done | constructor]).
  apply reachable_invariant in Hr' as [Hok' Hnd'].
  assert (VStr (Item.name item) ∈ item_names (create_item fos item s).2) as Hin.
  { clear Hok' Hnd'. rewrite create_item_unfold.
    assert (VStr (Item.name item) ∈
              item_names (create_document "item" (Item.model_dump item) s).2) as Hnew.
    { unfold item_names. rewrite coll_create_document, decide_True by done.
      rewrite map_app. apply elem_of_app. right. left. }
    destruct (head _) as [d|] eqn:Hh.
    - apply head_filter_Some in Hh as [Hd Hm]. apply matches_QStr in Hm.
      rewrite <- Hm. unfold item_names.
      apply (list_elem_of_fmap_2 (fun d => get d "name")), Hd.
    - cbv zeta. repeat case_match; exact Hnew. }
  set (s' := (create_item fos item s).2) in *.
  destruct (store_ok_parts s' Hok') as (Hdocs & _).
  destruct (serialize_items_ok _ Hdocs) as (outs & Hser & Hnames).
  exists outs. rewrite list_items_unfold, Hser. split; [done|].
  fold (item_names s') in Hnames.
  rewrite <- Hnames, <- (map_map ItemOut.name VStr) in Hnd', Hin.
  apply count_unique.
  - by apply (NoDup_fmap_1 VStr).
  - apply list_elem_of_fmap in Hin as (n & Hn & Hin). by injection Hn as ->.
Qed.

(** C5.  [create_item] on a name some stored item already has raises the
    400 Conflict error, whatever [unit] and [protein_per_unit] are. *)
Theorem create_item_conflict item s d :
  d ∈ coll s "item" ->
  get d "name" = VStr (Item.name item) ->
  create_item fos item s =
    (Raise (HTTPException 400 "Item with this name already exists"), s).
Proof.
  intros Hin Hname. rewrite create_item_unfold.
  destruct (head _) eqn:Hh; [done|].
  rewrite head_filter_None in Hh. specialize (Hh d Hin).
  apply matches_QStr in Hname. congruence.
Qed.




(** C9.  When [create_item] raises the duplicate-name Conflict error the
    store is unchanged: the check comes before the insert. *)
Theorem create_item_conflict_no_write item s :
  (create_item fos item s).1 =
    Raise (HTTPException 400 "Item with this name already exists") ->
  (create_item fos item s).2 = s.
Proof.
  rewrite create_item_unfold. destruct (head _); [done|].
  cbv zeta. destruct (ObjectId_parse _); [|discriminate].
  destruct (head _); [|discriminate].
  cbn [fst]. intros H%serialize_item_raise. discriminate.
Qed.

(** C10.  The duplicate check compares names as strings: a name no stored
    item has exactly is accepted, whatever names differing in case or
    white space are stored, and the new item is stored after the others. *)
Theorem create_item_exact_name item s :
  store_ok s = true ->
  next_oid s < 2 ^ 96 ->
  (forall d, d ∈ coll s "item" -> get d "name" <> VStr (Item.name item)) ->
  exists s',
    create_item fos item s =
      (Ok (ItemOut.mk (ObjectId_str (next_oid s)) (Item.name item)
             (Item.unit item) (Item.protein_per_unit item)), s') /\
    item_names s' = item_names s ++ [VStr (Item.name item)].
Proof.
  intros Hok Hlt Hfree.
  destruct (store_ok_parts s Hok) as (_ & _ & Hids & _ & Hnn).
  rewrite create_item_unfold.
  assert (head (List.filter (matches (QStr "name" (Item.name item))) (coll s "item"))
          = None) as ->.
  { apply head_filter_None. intros d Hd.
    destruct (matches _ d) eqn:E; [|done].
    apply matches_QStr in E. by destruct (Hfree d Hd). }
  cbv zeta. rewrite ObjectId_parse_str by lia.
  rewrite coll_create_document, decide_True by done.
  rewrite filter_id_snoc by done. cbn [head].
  eexists. split; [reflexivity|].
  unfold item_names. rewrite coll_create_document, decide_True by done.
  by rewrite map_app.
Qed.

End Properties.

(** ** The claims on the sample run *)

Lemma coll_store1_item : coll store1 "item" = [chicken_doc].
Proof. reflexivity. Qed.


Lemma reachable_store1 : reachable float_of_str_none store1.
Proof. eapply reachable_step; [apply reachable_empty | apply step_create_item]. Qed.

(** C1 on the sample run: the logged total is [0.31 * 200 = 62.0]. *)
Lemma create_consumption_protein_total_witness :
  exists out s',
    create_consumption float_of_str_none lunch store1 = (Ok out, s') /\
    ConsumptionOut.protein_total out = 62%float.
Proof.
  destruct (create_consumption_protein_total float_of_str_none lunch store1 0 chicken_doc)
    as (ppu & rec & out & s' & Hrun & _ & Hppu & _ & _ & _ & _ & _ & _ & Htot & _);
    [reflexivity | reflexivity | reflexivity | reflexivity | reflexivity |].
  exists out, s'. split; [exact Hrun|].
  injection Hppu as <-. exact Htot.
Defined.



(** C4 on the sample run: posting a second item. *)
Lemma item_names_unique_witness :
  NoDup (item_names store1) /\
  exists outs,
    list_items float_of_str_none
        (post_items float_of_str_none (Item.mk "Egg" "piece" 6) store1).2 =
      (Ok outs, (post_items float_of_str_none (Item.mk "Egg" "piece" 6) store1).2) /\
    length (List.filter (fun o => String.eqb (ItemOut.name o) "Egg") outs) = 1%nat.
Proof.
  apply (item_names_unique float_of_str_none store1 (Item.mk "Egg" "piece" 6));
    [apply reachable_store1 | reflexivity].
Defined.

(** C5 on the sample run: the stored name again, with another unit and
    another protein content. *)
Lemma create_item_conflict_witness :
  create_item float_of_str_none (Item.mk "Chicken Breast" "cup" 43) store1 =
    (Raise (HTTPException 400 "Item with this name already exists"), store1).
Proof.
  apply (create_item_conflict float_of_str_none
           (Item.mk "Chicken Breast" "cup" 43) store1 chicken_doc).
  - rewrite coll_store1_item. apply list_elem_of_here.
  - reflexivity.
Defined.





(** C9 on the sample run. *)
Lemma create_item_conflict_no_write_witness :
  (create_item float_of_str_none chicken store1).2 = store1.
Proof.
  apply (create_item_conflict_no_write float_of_str_none chicken store1).
  reflexivity.
Defined.

(** C10 on the example of the claim: ["chicken"] after ["Chicken"]. *)
Lemma create_item_exact_name_witness :
  exists s',
    create_item float_of_str_none (Item.mk "chicken" "gm" 0.31)
        (create_item float_of_str_none (Item.mk "Chicken" "gm" 0.31) empty_store).2 =
      (Ok (ItemOut.mk "000000000000000000000001" "chicken" "gm" 0.31), s') /\
    item_names s' = [VStr "Chicken"; VStr "chicken"].
Proof.
  apply (create_item_exact_name float_of_str_none (Item.mk "chicken" "gm" 0.31)
           (create_item float_of_str_none (Item.mk "Chicken" "gm" 0.31) empty_store).2);
    [reflexivity | reflexivity |].
  intros d Hd.
  change (d ∈ [mkDoc 0 (Item.model_dump (Item.mk "Chicken" "gm" 0.31))]) in Hd.
  apply list_elem_of_singleton in Hd. subst d. discriminate.
Defined.

(** * Further properties of the handlers *)

Lemma fold_left_snoc {A B} (f : A -> B -> A) l x a :
  fold_left f (l ++ [x]) a = f (fold_left f l a) x.
Proof. by rewrite fold_left_app. Qed.

Lemma Forall2_snoc {A B} (R : A -> B -> Prop) l k x y :
  Forall2 R l k -> R x y -> Forall2 R (l ++ [x]) (k ++ [y]).
Proof. intros H Hxy. apply Forall2_app; [done | by constructor]. Qed.

Section Further.
Variable fos : string -> option float.

(** ** The two writers, in full, on a well-formed store *)

Lemma create_item_fresh item s :
  store_ok s = true ->
  next_oid s < 2 ^ 96 ->
  head (List.filter (matches (QStr "name" (Item.name item))) (coll s "item")) = None ->
  create_item fos item s =
    (Ok (ItemOut.mk (ObjectId_str (next_oid s)) (Item.name item)
           (Item.unit item) (Item.protein_per_unit item)),
     (create_document "item" (Item.model_dump item) s).2).
Proof.
  intros Hok Hlt Hfree.
  destruct (store_ok_parts s Hok) as (_ & _ & Hids & _ & Hnn).
  rewrite create_item_unfold, Hfree. cbv zeta.
  rewrite ObjectId_parse_str by lia.
  rewrite coll_create_document, decide_True by done.
  rewrite filter_id_snoc by done. reflexivity.
Qed.

Lemma create_consumption_found entry s o item_doc :
  store_ok s = true ->
  next_oid s < 2 ^ 96 ->
  date_valid (Consumption.date entry) = true ->
  ObjectId_parse (Consumption.item_id entry) = Some o ->
  head (List.filter (matches (QId o)) (coll s "item")) = Some item_doc ->
  exists n u p,
    get item_doc "name" = VStr n /\ get item_doc "unit" = VStr u /\
    get item_doc "protein_per_unit" = VFloat p /\
    create_consumption fos entry s =
      (Ok (ConsumptionOut.mk (ObjectId_str (next_oid s)) (Consumption.date entry)
             (Consumption.item_id entry) n u (Consumption.quantity entry) p
             (p * Consumption.quantity entry)%float),
       (create_document "consumption"
          (<["date" := VStr (isoformat (Consumption.date entry))]>
          (<["item_id" := VStr (Consumption.item_id entry)]>
          (<["item_name" := VStr n]>
          (<["unit" := VStr u]>
          (<["quantity" := VFloat (Consumption.quantity entry)]>
          (<["protein_per_unit" := VFloat p]>
          (<["protein_total" := VFloat (p * Consumption.quantity entry)%float]> ∅)))))))
          s).2).
Proof.
  intros Hok Hlt Hdt Ho Hitem.
  destruct (store_ok_parts s Hok) as (_ & _ & _ & Hids & Hnn).
  pose proof (head_filter_Some _ _ _ Hitem) as [Hin _].
  pose proof (store_ok_item_doc s item_doc Hok Hin) as Hdoc.
  destruct (serialize_item_ok fos item_doc Hdoc) as (n & u & p & Hn & Hu & Hp & _).
  exists n, u, p. split; [done|]. split; [done|].
  assert (get item_doc "protein_per_unit" = VFloat p) as Hget.
  { unfold item_doc_ok in Hdoc. apply andb_prop in Hdoc as [_ Hf].
    apply is_float_get in Hf as [f Hf]. unfold get. rewrite Hf.
    rewrite (get_float_ok fos _ _ _ Hf) in Hp. by injection Hp as ->. }
  split; [done|].
  rewrite create_consumption_unfold, Ho, Hitem, Hp. cbv zeta.
  rewrite ObjectId_parse_str by lia.
  rewrite coll_create_document, decide_True by done.
  rewrite filter_id_snoc by done. cbn [head].
  rewrite Hn, Hu, consumption_out_payload by done. reflexivity.
Qed.

(** On a well-formed store [create_consumption] ends in one of three ways. *)
Lemma create_consumption_cases entry s :
  store_ok s = true ->
  next_oid s < 2 ^ 96 ->
  date_valid (Consumption.date entry) = true ->
  create_consumption fos entry s = (Raise (HTTPException 400 "Invalid ID format"), s) \/
  create_consumption fos entry s = (Raise (HTTPException 404 "Item not found"), s) \/
  exists (item_doc : Doc) n u p,
    item_doc ∈ coll s "item" /\
    ObjectId_parse (Consumption.item_id entry) = Some (_id item_doc) /\
    get item_doc "name" = VStr n /\ get item_doc "unit" = VStr u /\
    get item_doc "protein_per_unit" = VFloat p /\
    create_consumption fos entry s =
      (Ok (ConsumptionOut.mk (ObjectId_str (next_oid s)) (Consumption.date entry)
             (Consumption.item_id entry) n u (Consumption.quantity entry) p
             (p * Consumption.quantity entry)%float),
       (create_document "consumption"
          (<["date" := VStr (isoformat (Consumption.date entry))]>
          (<["item_id" := VStr (Consumption.item_id entry)]>
          (<["item_name" := VStr n]>
          (<["unit" := VStr u]>
          (<["quantity" := VFloat (Consumption.quantity entry)]>
          (<["protein_per_unit" := VFloat p]>
          (<["protein_total" := VFloat (p * Consumption.quantity entry)%float]> ∅)))))))
          s).2).
Proof.
  intros Hok Hlt Hdt.
  destruct (ObjectId_parse (Consumption.item_id entry)) as [o|] eqn:Ho.
  - destruct (head (List.filter (matches (QId o)) (coll s "item"))) as [item_doc|] eqn:Hh.
    + right. right.
      destruct (create_consumption_found entry s o item_doc Hok Hlt Hdt Ho Hh)
        as (n & u & p & Hn & Hu & Hp & Hrun).
      apply head_filter_Some in Hh as [Hin Hm]. cbn [matches] in Hm.
      exists item_doc, n, u, p. repeat split; try done.
      f_equal. lia.
    + right. left. by rewrite create_consumption_unfold, Ho, Hh.
  - left. by rewrite create_consumption_unfold, Ho.
Qed.

(** ** What a handler leaves of the store *)

Lemma create_item_store item s :
  (create_item fos item s).2 = s \/
  (create_item fos item s).2 = (create_document "item" (Item.model_dump item) s).2.
Proof.
  rewrite create_item_unfold. destruct (head _); [by left|].
  right. cbv zeta. by repeat case_match.
Qed.

Lemma create_consumption_store entry s :
  (create_consumption fos entry s).2 = s \/
  exists payload,
    payload !! "date" = Some (VStr (isoformat (Consumption.date entry))) /\
    (create_consumption fos entry s).2 = (create_document "consumption" payload s).2.
Proof.
  rewrite create_consumption_unfold.
  destruct (ObjectId_parse _); [|by left].
  destruct (head _); [|by left].
  destruct (get_float _ _ _); [|by left].
  right. cbv zeta. eexists. split; [apply lookup_insert_eq|].
  by repeat case_match.
Qed.

Lemma coll_item_create_consumption entry s :
  coll (create_consumption fos entry s).2 "item" = coll s "item".
Proof.
  destruct (create_consumption_store entry s) as [->|(payload & _ & ->)]; [done|].
  by rewrite coll_create_document, decide_False by discriminate.
Qed.

Lemma coll_consumption_create_item item s :
  coll (create_item fos item s).2 "consumption" = coll s "consumption".
Proof.
  destruct (create_item_store item s) as [->| ->]; [done|].
  by rewrite coll_create_document, decide_False by discriminate.
Qed.

(** The answer of a listing is a function of the collection it reads. *)
Lemma list_items_fst s s' :
  coll s' "item" = coll s "item" -> (list_items fos s').1 = (list_items fos s).1.
Proof. intros H. rewrite !list_items_unfold. cbn [fst]. by rewrite H. Qed.

Lemma list_consumptions_fst date_str s s' :
  List.filter (matches (QStr "date" date_str)) (coll s' "consumption") =
  List.filter (matches (QStr "date" date_str)) (coll s "consumption") ->
  (list_consumptions fos date_str s').1 = (list_consumptions fos date_str s).1.
Proof.
  intros H. rewrite !list_consumptions_unfold, H.
  by repeat case_match.
Qed.



Lemma consumption_out_raise d e : consumption_out fos d = Raise e -> e = Uncaught.
Proof.
  unfold consumption_out. intros H.
  destruct (as_date (get d "date")) as [|e1] eqn:E1.
  2:{ cbn in H. injection H as <-. unfold as_date in E1.
      repeat (case_match; simplify_eq); done. }
  destruct (get_float fos d "quantity") as [|e2] eqn:E2.
  2:{ cbn in H. injection H as <-. unfold get_float, py_float in E2.
      repeat (case_match; simplify_eq); done. }
  destruct (get_float fos d "protein_per_unit") as [|e3] eqn:E3.
  2:{ cbn in H. injection H as <-. unfold get_float, py_float in E3.
      repeat (case_match; simplify_eq); done. }
  destruct (get_float fos d "protein_total") as [|e4] eqn:E4.
  2:{ cbn in H. injection H as <-. unfold get_float, py_float in E4.
      repeat (case_match; simplify_eq); done. }
  unfold as_str in H.
  destruct (get d "item_id"), (get d "item_name"), (get d "unit");
    cbn [mbind result_bind mret result_ret] in H;
    first [discriminate H | by injection H as <-].
Qed.

Lemma list_loop_raise docs entries total e :
  list_loop fos docs entries total = Raise e -> e = Uncaught.
Proof.
  revert entries total. induction docs as [|d docs IH]; intros entries total H; [done|].
  cbn [list_loop] in H. destruct (consumption_out fos d) eqn:E.
  - cbn in H. by eapply IH.
  - cbn in H. injection H as <-. by eapply consumption_out_raise.
Qed.

(** ** Properties *)

(** X1.  A created consumption is returned under the identifier the store
    assigned, with the request's own date, [item_id] string and quantity. *)
Theorem create_consumption_echo entry s out s' :
  store_ok s = true ->
  next_oid s < 2 ^ 96 ->
  date_valid (Consumption.date entry) = true ->
  create_consumption fos entry s = (Ok out, s') ->
  ConsumptionOut.id out = ObjectId_str (next_oid s) /\
  ConsumptionOut.date out = Consumption.date entry /\
  ConsumptionOut.item_id out = Consumption.item_id entry /\
  ConsumptionOut.quantity out = Consumption.quantity entry.
Proof.
  intros Hok Hlt Hdt Hrun.
  destruct (create_consumption_cases entry s Hok Hlt Hdt)
    as [H|[H|(item_doc & n & u & p & _ & _ & _ & _ & _ & H)]];
    rewrite H in Hrun; try discriminate Hrun.
  by injection Hrun as <- _.
Qed.

(** X2.  On a well-formed store [create_consumption] is all or nothing: a
    success appends exactly one consumption record, under the next
    identifier, and leaves the items alone; a failure is the 400 or the 404
    error and leaves the whole store as it was. *)
Theorem create_consumption_all_or_nothing entry s r s' :
  store_ok s = true ->
  next_oid s < 2 ^ 96 ->
  date_valid (Consumption.date entry) = true ->
  create_consumption fos entry s = (r, s') ->
  match r with
  | Ok out =>
      exists rec,
        coll s' "consumption" = coll s "consumption" ++ [rec] /\
        _id rec = next_oid s /\
        coll s' "item" = coll s "item" /\
        next_oid s' = next_oid s + 1
  | Raise e =>
      s' = s /\
      (e = HTTPException 400 "Invalid ID format" \/
       e = HTTPException 404 "Item not found")
  end.
Proof.
  intros Hok Hlt Hdt Hrun.
  destruct (create_consumption_cases entry s Hok Hlt Hdt)
    as [H|[H|(item_doc & n & u & p & _ & _ & _ & _ & _ & H)]];
    rewrite H in Hrun; apply pair_equal_spec in Hrun as [<- <-].
  - split; [done | by left].
  - split; [done | by right].
  - eexists. rewrite !coll_create_document.
    rewrite decide_True by done. rewrite decide_False by discriminate.
    split; [reflexivity|]. done.
Qed.

(** X3.  On a well-formed store [create_item] is all or nothing: a success
    appends exactly the posted item, under the next identifier, and leaves
    the consumptions alone; the only failure is the Conflict error, with
    the store as it was. *)
Theorem create_item_all_or_nothing item s r s' :
  store_ok s = true ->
  next_oid s < 2 ^ 96 ->
  create_item fos item s = (r, s') ->
  match r with
  | Ok out =>
      coll s' "item" = coll s "item" ++ [mkDoc (next_oid s) (Item.model_dump item)] /\
      coll s' "consumption" = coll s "consumption" /\
      next_oid s' = next_oid s + 1
  | Raise e =>
      s' = s /\ e = HTTPException 400 "Item with this name already exists"
  end.
Proof.
  intros Hok Hlt Hrun.
  destruct (head (List.filter (matches (QStr "name" (Item.name item))) (coll s "item")))
    eqn:Hh.
  - rewrite create_item_unfold, Hh in Hrun.
    by apply pair_equal_spec in Hrun as [<- <-].
  - rewrite (create_item_fresh item s Hok Hlt Hh) in Hrun.
    apply pair_equal_spec in Hrun as [<- <-].
    rewrite !coll_create_document.
    rewrite decide_True by done. by rewrite decide_False by discriminate.
Qed.



(** X6.  A consumption logged for one date, whatever comes of the request,
    does not change the answer of the listing for another date string. *)
Theorem list_consumptions_other_date entry s date_str :
  date_str <> isoformat (Consumption.date entry) ->
  (list_consumptions fos date_str (create_consumption fos entry s).2).1 =
  (list_consumptions fos date_str s).1.
Proof.
  intros Hne. apply list_consumptions_fst.
  destruct (create_consumption_store entry s) as [->|(payload & Hdate & ->)]; [done|].
  rewrite coll_create_document, decide_True by done.
  rewrite List.filter_app. cbn [List.filter matches fields]. rewrite Hdate.
  destruct (String.eqb_spec (isoformat (Consumption.date entry)) date_str);
    [congruence | apply app_nil_r].
Qed.

(** X7.  Items and consumptions do not interfere: creating an item never
    changes the answer of a consumption listing, and logging a consumption
    never changes the answer of the item listing. *)
Theorem items_and_consumptions_independent item entry date_str s :
  (list_consumptions fos date_str (create_item fos item s).2).1 =
    (list_consumptions fos date_str s).1 /\
  (list_items fos (create_consumption fos entry s).2).1 = (list_items fos s).1.
Proof.
  split.
  - apply list_consumptions_fst. by rewrite coll_consumption_create_item.
  - apply list_items_fst, coll_item_create_consumption.
Qed.

(** X8.  Once [create_item] has been tried with a name, on any store and
    with any outcome, a further [create_item] with that name raises the
    Conflict error and writes nothing. *)
Theorem create_item_again_conflicts item unit p s :
  create_item fos (Item.mk (Item.name item) unit p) (create_item fos item s).2 =
    (Raise (HTTPException 400 "Item with this name already exists"),
     (create_item fos item s).2).
Proof.
  assert (exists d, d ∈ coll (create_item fos item s).2 "item" /\
            matches (QStr "name" (Item.name item)) d = true) as (d & Hd & Hm).
  { rewrite create_item_unfold.
    assert (exists d,
              d ∈ coll (create_document "item" (Item.model_dump item) s).2 "item" /\
              matches (QStr "name" (Item.name item)) d = true) as Hnew.
    { eexists. rewrite coll_create_document, decide_True by done.
      split; [apply elem_of_app; right; left|].
      apply matches_QStr. reflexivity. }
    destruct (head _) as [d|] eqn:Hh.
    - exists d. by apply head_filter_Some.
    - cbv zeta. repeat case_match; exact Hnew. }
  set (s1 := (create_item fos item s).2) in *.
  rewrite create_item_unfold. cbn [Item.name].
  destruct (head _) eqn:Hh; [done|].
  rewrite head_filter_None in Hh. specialize (Hh d Hd). congruence.
Qed.

(** ** Documents the handlers cannot read *)

Lemma serialize_items_raise docs d :
  d ∈ docs ->
  (forall o, serialize_item fos d <> Ok o) ->
  serialize_items fos docs = Raise Uncaught.
Proof.
  intros Hin Hbad. induction docs as [|d' docs IH]; [by apply elem_of_nil in Hin|].
  cbn [serialize_items]. destruct (serialize_item fos d') as [o|e] eqn:E.
  - apply elem_of_cons in Hin as [->|Hin]; [by destruct (Hbad o)|].
    cbn. by rewrite (IH Hin).
  - cbn. f_equal. by eapply serialize_item_raise.
Qed.

Lemma list_loop_bad docs d entries total :
  d ∈ docs ->
  (forall o, consumption_out fos d <> Ok o) ->
  list_loop fos docs entries total = Raise Uncaught.
Proof.
  intros Hin Hbad. revert entries total.
  induction docs as [|d' docs IH]; intros entries total;
    [by apply elem_of_nil in Hin|].
  cbn [list_loop]. destruct (consumption_out fos d') as [o|e] eqn:E.
  - apply elem_of_cons in Hin as [->|Hin]; [by destruct (Hbad o)|].
    cbn. by apply IH.
  - cbn. f_equal. by eapply consumption_out_raise.
Qed.

Lemma list_loop_inv docs entries total r :
  list_loop fos docs entries total = Ok r ->
  exists outs,
    Forall2 (fun d o => consumption_out fos d = Ok o) docs outs /\
    r = (entries ++ outs,
         fold_left PrimFloat.add (map ConsumptionOut.protein_total outs) total).
Proof.
  revert entries total. induction docs as [|d docs IH]; intros entries total H.
  - injection H as <-. exists []. split; [constructor|]. by rewrite app_nil_r.
  - cbn [list_loop] in H. destruct (consumption_out fos d) as [co|] eqn:E; [|done].
    cbn in H. destruct (IH _ _ H) as (outs & HF & ->).
    exists (co :: outs). split; [by constructor|]. by rewrite <- app_assoc.
Qed.

Lemma list_consumptions_inv date_str s r s' :
  list_consumptions fos date_str s = (Ok r, s') ->
  exists dt outs,
    fromisoformat date_str = Some dt /\
    Forall2 (fun d o => consumption_out fos d = Ok o)
      (List.filter (matches (QStr "date" date_str)) (coll s "consumption")) outs /\
    r = DayTotal.mk date_str outs
          (py_round (float_sum (map ConsumptionOut.protein_total outs)) 2) /\
    s' = s.
Proof.
  rewrite list_consumptions_unfold. intros H.
  destruct (fromisoformat date_str) as [dt|]; [|discriminate H].
  destruct (list_loop _ _ _ _) as [[es t]|] eqn:E; [|discriminate H].
  apply list_loop_inv in E as (outs & HF & E). cbn [app] in E.
  injection E as -> ->. apply pair_equal_spec in H as [H <-]. injection H as <-.
  by exists dt, outs.
Qed.

Lemma get_VFloat d key f :
  get d key = VFloat f -> get_float fos d key = Ok f.
Proof.
  unfold get, get_float. destruct (fields d !! key) as [v|]; [|discriminate].
  cbn. by intros ->.
Qed.

(** X9.  A stored item without a [protein_per_unit] key is listed with
    [0.0]: the [get] of [serialize_item] has a default. *)
Theorem serialize_item_default doc n u :
  get doc "name" = VStr n ->
  get doc "unit" = VStr u ->
  fields doc !! "protein_per_unit" = None ->
  serialize_item fos doc = Ok (ItemOut.mk (ObjectId_str (_id doc)) n u 0).
Proof.
  intros Hn Hu Hp. unfold serialize_item, get_float. by rewrite Hp, Hn, Hu.
Qed.

(** X10.  One stored item whose [name] or [unit] is not a [str] makes the
    whole item listing fail: no partial list is returned. *)
Theorem list_items_no_partial_result d s :
  d ∈ coll s "item" ->
  is_str (get d "name") && is_str (get d "unit") = false ->
  list_items fos s = (Raise Uncaught, s).
Proof.
  intros Hin Hbad. rewrite list_items_unfold. f_equal.
  apply (serialize_items_raise _ d Hin).
  intros o Ho. unfold serialize_item, as_str in Ho.
  destruct (get_float fos d "protein_per_unit"); [|discriminate Ho].
  destruct (get d "name"), (get d "unit"); discriminate.
Qed.

(** X11.  One stored consumption under the queried date that cannot be
    turned into a [ConsumptionOut] makes the whole listing for that date
    fail: no entries and no total are returned. *)
Theorem list_consumptions_no_partial_result d s date_str dt e :
  d ∈ coll s "consumption" ->
  get d "date" = VStr date_str ->
  fromisoformat date_str = Some dt ->
  consumption_out fos d = Raise e ->
  list_consumptions fos date_str s = (Raise Uncaught, s).
Proof.
  intros Hin Hdate Hdt Hbad. rewrite list_consumptions_unfold, Hdt.
  rewrite (list_loop_bad _ d); [done| |by rewrite Hbad].
  apply list_elem_of_In, filter_In. split; [by apply list_elem_of_In|].
  by apply matches_QStr.
Qed.

(** X12.  Whatever the store holds, a listing that succeeds answers with
    the query string as its [date], and every entry carries the date that
    string denotes. *)
Theorem list_consumptions_dates date_str s r s' :
  list_consumptions fos date_str s = (Ok r, s') ->
  DayTotal.date r = date_str /\
  exists dt,
    fromisoformat date_str = Some dt /\
    Forall (fun o => ConsumptionOut.date o = dt) (DayTotal.entries r).
Proof.
  intros (dt & outs & Hdt & HF & -> & _)%list_consumptions_inv.
  split; [done|]. exists dt. split; [done|]. cbn [DayTotal.entries].
  apply Forall_forall. intros o Ho.
  apply list_elem_of_lookup in Ho as [i Hi].
  destruct (Forall2_lookup_r _ _ _ _ _ HF Hi) as (d & Hd & Hout).
  apply list_elem_of_lookup_2, list_elem_of_In, filter_In in Hd as [_ Hm].
  apply matches_QStr in Hm.
  unfold consumption_out, as_date, as_str in Hout. rewrite Hm, Hdt in Hout.
  destruct (get_float fos d "quantity"); try discriminate Hout.
  destruct (get_float fos d "protein_per_unit"); try discriminate Hout.
  destruct (get_float fos d "protein_total"); try discriminate Hout.
  destruct (get d "item_id"); try discriminate Hout.
  destruct (get d "item_name"); try discriminate Hout.
  destruct (get d "unit"); try discriminate Hout.
  simpl in Hout. by injection Hout as <-.
Qed.

(** ** Stored consumptions are snapshots of stored items *)

Lemma coll_item_create_item_incl item s d :
  d ∈ coll s "item" -> d ∈ coll (create_item fos item s).2 "item".
Proof.
  intros Hd. destruct (create_item_store item s) as [->| ->]; [done|].
  rewrite coll_create_document, decide_True by done.
  apply elem_of_app. by left.
Qed.

Lemma create_consumption_written entry s :
  store_ok s = true ->
  (create_consumption fos entry s).2 = s \/
  exists item_doc n u p,
    item_doc ∈ coll s "item" /\
    ObjectId_parse (Consumption.item_id entry) = Some (_id item_doc) /\
    get item_doc "name" = VStr n /\ get item_doc "unit" = VStr u /\
    get item_doc "protein_per_unit" = VFloat p /\
    (create_consumption fos entry s).2 =
      (create_document "consumption"
         (<["date" := VStr (isoformat (Consumption.date entry))]>
         (<["item_id" := VStr (Consumption.item_id entry)]>
         (<["item_name" := VStr n]>
         (<["unit" := VStr u]>
         (<["quantity" := VFloat (Consumption.quantity entry)]>
         (<["protein_per_unit" := VFloat p]>
         (<["protein_total" := VFloat (p * Consumption.quantity entry)%float]> ∅)))))))
         s).2.
Proof.
  intros Hok. rewrite create_consumption_unfold.
  destruct (ObjectId_parse _) as [o|]; [|by left].
  destruct (head _) as [item_doc|] eqn:Hh; [|by left].
  apply head_filter_Some in Hh as [Hin Hm]. cbn [matches] in Hm.
  pose proof (store_ok_item_doc s item_doc Hok Hin) as Hdoc.
  destruct (serialize_item_ok fos item_doc Hdoc) as (n & u & p & Hn & Hu & Hp & _).
  assert (get item_doc "protein_per_unit" = VFloat p) as Hget.
  { unfold item_doc_ok in Hdoc. apply andb_prop in Hdoc as [_ Hf].
    apply is_float_get in Hf as [f Hf]. unfold get. rewrite Hf.
    rewrite (get_float_ok fos _ _ _ Hf) in Hp. by injection Hp as ->. }
  rewrite Hp, Hn, Hu. right. exists item_doc, n, u, p.
  repeat split; try done; [f_equal; lia|].
  cbv zeta. by repeat case_match.
Qed.

Lemma step_snapshots s s' :
  step fos s s' ->
  store_ok s = true ->
  (forall c, c ∈ coll s "consumption" -> exists i, i ∈ coll s "item" /\ snapshot_of i c) ->
  forall c, c ∈ coll s' "consumption" -> exists i, i ∈ coll s' "item" /\ snapshot_of i c.
Proof.
  intros Hstep Hok IH c Hc. destruct Hstep.
  - rewrite coll_consumption_create_item in Hc.
    destruct (IH c Hc) as (i & Hi & Hsnap).
    exists i. split; [by apply coll_item_create_item_incl | done].
  - rewrite list_items_store in Hc |- *. by apply IH.
  - rewrite coll_item_create_consumption.
    destruct (create_consumption_written entry s Hok)
      as [E|(item_doc & n & u & p & Hin & Hid & Hn & Hu & Hp & E)];
      rewrite E in Hc; [by apply IH|].
    rewrite coll_create_document, decide_True in Hc by done.
    apply elem_of_app in Hc as [Hc|Hc]; [by apply IH|].
    apply list_elem_of_singleton in Hc. subst c.
    exists item_doc. split; [done|].
    exists (Consumption.item_id entry), p, (Consumption.quantity entry).
    rewrite Hn, Hu, Hp. repeat split; try done; lookup_fields; reflexivity.
  - rewrite list_consumptions_store in Hc |- *. by apply IH.
Qed.

Lemma reachable_snapshots s :
  reachable fos s ->
  forall c, c ∈ coll s "consumption" -> exists i, i ∈ coll s "item" /\ snapshot_of i c.
Proof.
  induction 1 as [|s s' Hr IH Hstep].
  - intros c Hc. by apply elem_of_nil in Hc.
  - apply reachable_invariant in Hr as [Hok _]. by eapply step_snapshots.
Qed.

(** X13.  In every reachable store each stored consumption is a snapshot of
    a stored item: its [item_id] names that item, it carries the item's
    name, unit and protein content, and its [protein_total] is that protein
    content times its quantity. *)
Theorem stored_consumptions_are_snapshots s c :
  reachable fos s ->
  c ∈ coll s "consumption" ->
  exists i, i ∈ coll s "item" /\ snapshot_of i c.
Proof. intros Hr Hc. by apply reachable_snapshots. Qed.

(** X14.  On every reachable store, every entry a consumption listing
    returns has [protein_total] equal to its [protein_per_unit] times its
    [quantity]. *)
Theorem listed_totals_are_products s date_str r s' :
  reachable fos s ->
  list_consumptions fos date_str s = (Ok r, s') ->
  Forall (fun o => ConsumptionOut.protein_total o =
                   (ConsumptionOut.protein_per_unit o * ConsumptionOut.quantity o)%float)
    (DayTotal.entries r).
Proof.
  intros Hr (dt & outs & Hdt & HF & -> & _)%list_consumptions_inv.
  cbn [DayTotal.entries]. apply Forall_forall. intros o Ho.
  apply list_elem_of_lookup in Ho as [k Hk].
  destruct (Forall2_lookup_r _ _ _ _ _ HF Hk) as (d & Hd & Hout).
  apply list_elem_of_lookup_2, list_elem_of_In, filter_In in Hd as [Hd _].
  apply list_elem_of_In in Hd.
  destruct (reachable_snapshots s Hr d Hd)
    as (i & _ & sid & p & q & _ & _ & _ & _ & _ & Hp & Hq & Ht).
  apply consumption_out_inv in Hout as (_ & _ & _ & _ & _ & Hq' & Hp' & Ht').
  rewrite (get_VFloat _ _ _ Hp) in Hp'. rewrite (get_VFloat _ _ _ Hq) in Hq'.
  rewrite (get_VFloat _ _ _ Ht) in Ht'.
  injection Hp' as <-. injection Hq' as <-. by injection Ht' as <-.
Qed.

Lemma list_items_ok s :
  store_ok s = true ->
  exists outs,
    list_items fos s = (Ok outs, s) /\
    Forall2 (fun d o =>
               ItemOut.id o = ObjectId_str (_id d) /\
               get d "name" = VStr (ItemOut.name o) /\
               get d "unit" = VStr (ItemOut.unit o) /\
               get_float fos d "protein_per_unit" = Ok (ItemOut.protein_per_unit o))
      (coll s "item") outs.
Proof.
  intros Hok.
  destruct (store_ok_parts s Hok) as (Hdocs & _).
  rewrite list_items_unfold.
  induction (coll s "item") as [|d docs IH].
  - exists []. split; [done | constructor].
  - cbn [forallb] in Hdocs. apply andb_prop in Hdocs as [Hd Hds].
    destruct (IH Hds) as (outs & Hser & HF).
    destruct (serialize_item_ok fos d Hd) as (n & u & p & Hn & Hu & Hp & Hs).
    eexists (_ :: outs). cbn [serialize_items]. rewrite Hs.
    apply pair_equal_spec in Hser as [-> _]. split; [done|].
    by constructor.
Qed.

(** X15.  On every reachable store the item listing succeeds, with one
    entry per stored item, in storage order, each carrying the identifier,
    name, unit and protein content of its document. *)
Theorem list_items_reachable s :
  reachable fos s ->
  exists outs,
    list_items fos s = (Ok outs, s) /\
    Forall2 (fun d o =>
               ItemOut.id o = ObjectId_str (_id d) /\
               get d "name" = VStr (ItemOut.name o) /\
               get d "unit" = VStr (ItemOut.unit o) /\
               get_float fos d "protein_per_unit" = Ok (ItemOut.protein_per_unit o))
      (coll s "item") outs.
Proof. intros [Hok _]%reachable_invariant. by apply list_items_ok. Qed.

(** ** What the schemas guarantee of a served store *)



Lemma served_reachable s : served fos s -> reachable fos s.
Proof.
  induction 1 as [|s s' _ IH Hstep]; [constructor|].
  destruct Hstep.
  - unfold post_items. destruct (Item.validate item); [|done].
    eapply reachable_step; [done | constructor].
  - eapply reachable_step; [done | constructor].
  - unfold post_consumptions, Consumption.validate.
    destruct (date_valid (Consumption.date entry)) eqn:Hdt; [|done].
    destruct (0 <? Consumption.quantity entry)%float; [|done].
    eapply reachable_step; [done | by constructor].
  - eapply reachable_step; [done | constructor].
Qed.

Lemma positive_field_get key d :
  positive_field key d = true -> exists f, get d key = VFloat f /\ (0 <? f)%float = true.
Proof.
  unfold positive_field. destruct (get d key); try discriminate. eauto.
Qed.

Lemma route_step_positive s s' :
  route_step fos s s' ->
  store_ok s = true ->
  (forall i, i ∈ coll s "item" -> positive_field "protein_per_unit" i = true) /\
  (forall c, c ∈ coll s "consumption" ->
     positive_field "quantity" c = true /\ positive_field "protein_per_unit" c = true) ->
  (forall i, i ∈ coll s' "item" -> positive_field "protein_per_unit" i = true) /\
  (forall c, c ∈ coll s' "consumption" ->
     positive_field "quantity" c = true /\ positive_field "protein_per_unit" c = true).
Proof.
  intros Hstep Hok [Hi Hc]. destruct Hstep.
  - unfold post_items, Item.validate.
    destruct (0 <? Item.protein_per_unit item)%float eqn:Hp; [|done].
    split.
    + intros i. destruct (create_item_store item s) as [->| ->]; [apply Hi|].
      rewrite coll_create_document, decide_True by done.
      intros [Hin|Hin]%elem_of_app; [by apply Hi|].
      apply list_elem_of_singleton in Hin. subst i. exact Hp.
    + intros c. rewrite coll_consumption_create_item. apply Hc.
  - by rewrite list_items_store.
  - unfold post_consumptions, Consumption.validate.
    destruct (date_valid (Consumption.date entry)); [|done].
    destruct (0 <? Consumption.quantity entry)%float eqn:Hq; [|done].
    cbn [andb]. split.
    + intros i. rewrite coll_item_create_consumption. apply Hi.
    + intros c.
      destruct (create_consumption_written entry s Hok)
        as [->|(item_doc & n & u & p & Hin & _ & _ & _ & Hp & ->)]; [apply Hc|].
      rewrite coll_create_document, decide_True by done.
      intros [Hin'|Hin']%elem_of_app; [by apply Hc|].
      apply list_elem_of_singleton in Hin'. subst c.
      apply Hi, positive_field_get in Hin as (f & Hf & Hpos).
      rewrite Hp in Hf. injection Hf as <-.
      unfold positive_field. lookup_fields. by rewrite Hq, Hpos.
  - by rewrite list_consumptions_store.
Qed.

Lemma served_positive s :
  served fos s ->
  (forall i, i ∈ coll s "item" -> positive_field "protein_per_unit" i = true) /\
  (forall c, c ∈ coll s "consumption" ->
     positive_field "quantity" c = true /\ positive_field "protein_per_unit" c = true).
Proof.
  induction 1 as [|s s' Hs IH Hstep].
  - split; intros d Hd; by apply elem_of_nil in Hd.
  - apply served_reachable, reachable_invariant in Hs as [Hok _].
    by eapply route_step_positive.
Qed.

(** X16.  On a store served through the routes every listed item has a
    [protein_per_unit] greater than zero: what the [Item] schema checked at
    creation still holds at every listing. *)
Theorem listed_items_positive s :
  served fos s ->
  exists outs,
    list_items fos s = (Ok outs, s) /\
    Forall (fun o => (0 <? ItemOut.protein_per_unit o)%float = true) outs.
Proof.
  intros Hs. pose proof (served_positive s Hs) as [Hpos _].
  apply served_reachable, reachable_invariant in Hs as [Hok _].
  destruct (list_items_ok s Hok) as (outs & Hrun & HF).
  exists outs. split; [done|]. apply Forall_forall. intros o Ho.
  apply list_elem_of_lookup in Ho as [k Hk].
  destruct (Forall2_lookup_r _ _ _ _ _ HF Hk) as (d & Hd & _ & _ & _ & Hp).
  apply list_elem_of_lookup_2, Hpos, positive_field_get in Hd as (f & Hf & Hlt).
  rewrite (get_VFloat _ _ _ Hf) in Hp. by injection Hp as <-.
Qed.

(** X17.  On a store served through the routes every listed consumption
    has a [quantity] and a [protein_per_unit] greater than zero. *)
Theorem listed_consumptions_positive s date_str r s' :
  served fos s ->
  list_consumptions fos date_str s = (Ok r, s') ->
  Forall (fun o => (0 <? ConsumptionOut.quantity o)%float = true /\
                   (0 <? ConsumptionOut.protein_per_unit o)%float = true)
    (DayTotal.entries r).
Proof.
  intros Hs (dt & outs & Hdt & HF & -> & _)%list_consumptions_inv.
  pose proof (served_positive s Hs) as [_ Hpos].
  cbn [DayTotal.entries]. apply Forall_forall. intros o Ho.
  apply list_elem_of_lookup in Ho as [k Hk].
  destruct (Forall2_lookup_r _ _ _ _ _ HF Hk) as (d & Hd & Hout).
  apply list_elem_of_lookup_2, list_elem_of_In, filter_In in Hd as [Hd _].
  apply list_elem_of_In, Hpos in Hd as [Hq Hp].
  apply positive_field_get in Hq as (q & Hq & Hqpos).
  apply positive_field_get in Hp as (p & Hp & Hppos).
  apply consumption_out_inv in Hout as (_ & _ & _ & _ & _ & Hq' & Hp' & _).
  rewrite (get_VFloat _ _ _ Hq) in Hq'. rewrite (get_VFloat _ _ _ Hp) in Hp'.
  injection Hq' as <-. by injection Hp' as <-.
Qed.


End Further.

(** ** The diagnostic route *)

Lemma py_len_app s1 s2 : py_len (s1 +:+ s2) = (py_len s1 + py_len s2)%nat.
Proof.
  induction s1 as [|c s1 IH]; [done|].
  simpl. rewrite IH. by destruct (is_continuation c).
Qed.

Lemma py_len_take n s : (py_len (py_take n s) <= n)%nat.
Proof.
  revert n. induction s as [|c s IH]; intros n; cbn [py_take py_len]; [lia|].
  destruct (is_continuation c) eqn:E.
  - cbn [py_len]. rewrite E. apply IH.
  - destruct n as [|n]; cbn [py_len]; [lia|]. rewrite E. specialize (IH n). lia.
Qed.

(** X19.  The diagnostic lists at most ten collections, each one a name the
    database reported. *)
Theorem test_database_collections db environ :
  (length (Diagnostic.collections (test_database db environ)) <= 10)%nat /\
  forall c, c ∈ Diagnostic.collections (test_database db environ) ->
    exists d names,
      db = Some d /\ list_collection_names d = inl names /\ c ∈ names.
Proof.
  unfold test_database.
  destruct db as [[name [names|msg]]|]; cbn; try destruct name; cbn;
    (split; [try lia | try (intros c Hc; by apply elem_of_nil in Hc)]).
  all: try (rewrite length_take; lia).
  all: intros c Hc; eexists _, names; split; [reflexivity|]; split; [reflexivity|];
    by eapply subseteq_take.
Qed.

(** X20.  The [database_url] and [database_name] of the diagnostic are
    never null and tell only whether the environment variables are set:
    nothing the database handle says reaches them. *)
Theorem test_database_environment db db' environ :
  Diagnostic.database_url (test_database db environ) =
    Diagnostic.database_url (test_database db' environ) /\
  Diagnostic.database_name (test_database db environ) =
    Diagnostic.database_name (test_database db' environ) /\
  Diagnostic.database_url (test_database db environ) <> None /\
  Diagnostic.database_name (test_database db environ) <> None.
Proof. done. Qed.

(** X21.  However long the message of an exception is, the [database]
    status of the diagnostic has at most 75 characters. *)
Theorem test_database_status_length db environ :
  (py_len (Diagnostic.database (test_database db environ)) <= 75)%nat.
Proof.
  unfold test_database.
  destruct db as [[name [names|msg]]|]; cbn [db_name list_collection_names];
    try destruct name; cbn [Diagnostic.database];
    rewrite ?py_len_app;
    try (pose proof (py_len_take 50 msg));
    try match goal with |- context [py_take 50 ?m] =>
          pose proof (py_len_take 50 m) end;
    repeat match goal with
    | |- context [py_len ?s] =>
        lazymatch s with
        | py_take _ _ => fail
        | _ => let n := eval vm_compute in (py_len s) in
               change (py_len s) with n
        end
    end; lia.
Qed.

(** ** The further properties on the sample run *)

Lemma coll_store2_lunch : coll store2 "consumption" = [lunch_doc].
Proof. vm_compute. reflexivity. Qed.

Lemma reachable_store2 : reachable float_of_str_none store2.
Proof.
  eapply reachable_step; [apply reachable_store1|].
  by apply (step_create_consumption float_of_str_none lunch store1).
Qed.

Lemma served_store1 : served float_of_str_none store1.
Proof.
  exact (served_step _ _ _ (served_empty _)
           (route_post_items float_of_str_none chicken empty_store)).
Qed.

Lemma served_store2 : served float_of_str_none store2.
Proof.
  exact (served_step _ _ _ served_store1
           (route_post_consumptions float_of_str_none lunch store1)).
Qed.

(** X1 on the sample run. *)
Lemma create_consumption_echo_witness :
  ConsumptionOut.id lunch_out = ObjectId_str (next_oid store1) /\
  ConsumptionOut.date lunch_out = Consumption.date lunch /\
  ConsumptionOut.item_id lunch_out = Consumption.item_id lunch /\
  ConsumptionOut.quantity lunch_out = Consumption.quantity lunch.
Proof.
  apply (create_consumption_echo float_of_str_none lunch store1 lunch_out store2);
    reflexivity.
Defined.

(** X2 on the sample run: the successful request. *)
Lemma create_consumption_all_or_nothing_witness :
  exists rec,
    coll store2 "consumption" = coll store1 "consumption" ++ [rec] /\
    _id rec = next_oid store1 /\
    coll store2 "item" = coll store1 "item" /\
    next_oid store2 = next_oid store1 + 1.
Proof.
  apply (create_consumption_all_or_nothing float_of_str_none lunch store1
           (Ok lunch_out) store2); reflexivity.
Defined.

(** X3 on the sample run: the first item, on the empty store. *)
Lemma create_item_all_or_nothing_witness :
  coll store1 "item" =
    coll empty_store "item" ++ [mkDoc (next_oid empty_store) (Item.model_dump chicken)] /\
  coll store1 "consumption" = coll empty_store "consumption" /\
  next_oid store1 = next_oid empty_store + 1.
Proof.
  apply (create_item_all_or_nothing float_of_str_none chicken empty_store
           (Ok chicken_out) store1); reflexivity.
Defined.



(** X6 on the sample run: the day after [lunch]. *)
Lemma list_consumptions_other_date_witness :
  (list_consumptions float_of_str_none "2024-01-16"
     (create_consumption float_of_str_none lunch store1).2).1 =
  (list_consumptions float_of_str_none "2024-01-16" store1).1.
Proof.
  apply (list_consumptions_other_date float_of_str_none lunch store1 "2024-01-16").
  discriminate.
Defined.

(** X9 on an item document without [protein_per_unit]. *)
Lemma serialize_item_default_witness :
  serialize_item float_of_str_none rice_doc =
    Ok (ItemOut.mk (ObjectId_str (_id rice_doc)) "Rice" "cup" 0).
Proof.
  apply (serialize_item_default float_of_str_none rice_doc "Rice" "cup"); reflexivity.
Defined.

(** X10 on a store with a nameless item beside a well-formed one. *)
Lemma list_items_no_partial_result_witness :
  list_items float_of_str_none foreign_store = (Raise Uncaught, foreign_store).
Proof.
  apply (list_items_no_partial_result float_of_str_none nameless_doc foreign_store).
  - change (nameless_doc ∈ [chicken_doc; nameless_doc]). right. left.
  - reflexivity.
Defined.

(** X11 on a store with a bare consumption beside a well-formed one. *)
Lemma list_consumptions_no_partial_result_witness :
  list_consumptions float_of_str_none "2024-01-15" foreign_store =
    (Raise Uncaught, foreign_store).
Proof.
  apply (list_consumptions_no_partial_result float_of_str_none bare_doc foreign_store
           "2024-01-15" (mkdate 2024 1 15) Uncaught).
  - change (bare_doc ∈ [lunch_doc; bare_doc]). right. left.
  - reflexivity.
  - reflexivity.
  - reflexivity.
Defined.

(** X12 on the sample run. *)
Lemma list_consumptions_dates_witness :
  DayTotal.date (DayTotal.mk "2024-01-15" [lunch_out] 62) = "2024-01-15" /\
  exists dt,
    fromisoformat "2024-01-15" = Some dt /\
    Forall (fun o => ConsumptionOut.date o = dt)
      (DayTotal.entries (DayTotal.mk "2024-01-15" [lunch_out] 62)).
Proof.
  apply (list_consumptions_dates float_of_str_none "2024-01-15" store2
           (DayTotal.mk "2024-01-15" [lunch_out] 62) store2).
  vm_compute. reflexivity.
Defined.

(** X13 on the sample run. *)
Lemma stored_consumptions_are_snapshots_witness :
  exists i, i ∈ coll store2 "item" /\ snapshot_of i lunch_doc.
Proof.
  apply (stored_consumptions_are_snapshots float_of_str_none store2 lunch_doc).
  - apply reachable_store2.
  - rewrite coll_store2_lunch. left.
Defined.

(** X14 on the sample run. *)
Lemma listed_totals_are_products_witness :
  Forall (fun o => ConsumptionOut.protein_total o =
                   (ConsumptionOut.protein_per_unit o * ConsumptionOut.quantity o)%float)
    (DayTotal.entries (DayTotal.mk "2024-01-15" [lunch_out] 62)).
Proof.
  apply (listed_totals_are_products float_of_str_none store2 "2024-01-15"
           (DayTotal.mk "2024-01-15" [lunch_out] 62) store2).
  - apply reachable_store2.
  - vm_compute. reflexivity.
Defined.

(** X15 on the sample run. *)
Lemma list_items_reachable_witness :
  exists outs,
    list_items float_of_str_none store2 = (Ok outs, store2) /\
    Forall2 (fun d o =>
               ItemOut.id o = ObjectId_str (_id d) /\
               get d "name" = VStr (ItemOut.name o) /\
               get d "unit" = VStr (ItemOut.unit o) /\
               get_float float_of_str_none d "protein_per_unit" =
                 Ok (ItemOut.protein_per_unit o))
      (coll store2 "item") outs.
Proof.
  apply (list_items_reachable float_of_str_none store2), reachable_store2.
Defined.

(** X16 on the sample run. *)
Lemma listed_items_positive_witness :
  exists outs,
    list_items float_of_str_none store2 = (Ok outs, store2) /\
    Forall (fun o => (0 <? ItemOut.protein_per_unit o)%float = true) outs.
Proof.
  apply (listed_items_positive float_of_str_none store2), served_store2.
Defined.

(** X17 on the sample run. *)
Lemma listed_consumptions_positive_witness :
  Forall (fun o => (0 <? ConsumptionOut.quantity o)%float = true /\
                   (0 <? ConsumptionOut.protein_per_unit o)%float = true)
    (DayTotal.entries (DayTotal.mk "2024-01-15" [lunch_out] 62)).
Proof.
  apply (listed_consumptions_positive float_of_str_none store2 "2024-01-15"
           (DayTotal.mk "2024-01-15" [lunch_out] 62) store2).
  - apply served_store2.
  - vm_compute. reflexivity.
Defined.

